(** * Crypto Options Seller Dashboard ([app.py]): a shallow embedding

    The script [app.py] fetches a spot price and an options chain from the
    exchange, enriches every row with quotes and Greeks, filters and sorts
    the chain, and computes a short-option payoff curve with its risk
    figures.  This file embeds that computation and proves properties of it.

    Modelling conventions.
    - Python numbers ([int] and [float]) are exact rationals [Q]; results
      are compared with [==] ([Qeq]).  [int(x)] truncates towards zero.
    - A value decoded from JSON is a [pyval]; a DataFrame cell is a [pyval]
      too ([PNone] is Python's [None]).
    - An uncaught Python exception is [Raise e]; everything fallible lives
      in the [result] monad, network calls in [IO] (a request counter
      threaded through the calls, the exchange being a function [net] of
      the counter and the URL).
    - Strings are ASCII.
    - The columns 'Instrument' and 'Strike' are typed ([string], [Q]): an
      instrument record whose name is not a string or whose strike is not
      a number is outside the model ([NotModelled]), as is a filter
      pattern that uses regular-expression syntax other than [.].
    - Sample prices are 64-bit integers in a pandas Series: a price grid
      with a bound outside the 64-bit range (where the Series wraps, or
      the float product overflows) is outside the model ([NotModelled]).
    - [@st.cache_data] is [cache_data]: the entries that are still fresh
      when a run starts are an argument of the run ([Cache]). *)

From Stdlib Require Import List String Ascii Bool Arith ZArith QArith Qround.
From Stdlib Require Import Lia Lqa Qminmax Permutation Sorted.
Import ListNotations.

Set Warnings "-register-all".

(** ** Exceptions and the error monad *)

Inductive exn : Type :=
| ConnectionError      (* requests.get: transport failure *)
| JSONDecodeError      (* response.json() on a body that is not JSON *)
| KeyError
| IndexError
| TypeError
| AttributeError
| ValueError
| OSError              (* datetime.fromtimestamp out of range *)
| NotModelled.         (* the model's own: input outside the modelled fragment *)

Inductive result (A : Type) : Type :=
| Ok (a : A)
| Raise (e : exn).
Arguments Ok {A} a.
Arguments Raise {A} e.

Definition bind {A B} (m : result A) (k : A -> result B) : result B :=
  match m with
  | Ok a => k a
  | Raise e => Raise e
  end.

Declare Scope result_scope.
Delimit Scope result_scope with result.
Notation "x <- m ;; k" := (bind m (fun x => k))
  (at level 61, m at next level, right associativity) : result_scope.

Definition raises {A} (m : result A) : Prop := exists e, m = Raise e.

(** ** Python values *)

Inductive pyval : Type :=
| PNone
| PBool (b : bool)
| PNum (q : Q)
| PStr (s : string)
| PList (l : list pyval)
| PDict (d : list (string * pyval)).   (* entries of a dict, keys distinct *)

Fixpoint dict_lookup (k : string) (d : list (string * pyval)) : option pyval :=
  match d with
  | [] => None
  | (k', v) :: d' => if String.eqb k k' then Some v else dict_lookup k d'
  end.

(** [v[k]] for a string key. *)
Definition subscript (v : pyval) (k : string) : result pyval :=
  match v with
  | PDict d => match dict_lookup k d with
               | Some x => Ok x
               | None => Raise KeyError
               end
  | _ => Raise TypeError
  end.

(** [v[0]]. *)
Definition subscript0 (v : pyval) : result pyval :=
  match v with
  | PList (x :: _) => Ok x
  | PList [] => Raise IndexError
  | PStr (String c _) => Ok (PStr (String c EmptyString))
  | PStr EmptyString => Raise IndexError
  | PDict _ => Raise KeyError          (* JSON keys are strings, never 0 *)
  | _ => Raise TypeError
  end.

(** [v.get(k)] and [v.get(k, None)]. *)
Definition dict_get (v : pyval) (k : string) : result pyval :=
  match v with
  | PDict d => Ok (match dict_lookup k d with Some x => x | None => PNone end)
  | _ => Raise AttributeError
  end.

(** [for x in v]. *)
Definition py_iter (v : pyval) : result (list pyval) :=
  match v with
  | PList l => Ok l
  | PDict d => Ok (map (fun kv => PStr (fst kv)) d)
  | PStr s => Ok (map (fun c => PStr (String c EmptyString)) (list_ascii_of_string s))
  | _ => Raise TypeError
  end.

(** The number a value stands for in arithmetic ([bool] is a subtype of
    [int]); [None] for everything that is not a number. *)
Definition as_num (v : pyval) : option Q :=
  match v with
  | PNum q => Some q
  | PBool true => Some 1
  | PBool false => Some 0
  | _ => None
  end.

Definition num (v : pyval) : result Q :=
  match as_num v with
  | Some q => Ok q
  | None => Raise TypeError
  end.

(** Truth value of [v] in a condition. *)
Definition truthy (v : pyval) : bool :=
  match v with
  | PNone => false
  | PBool b => b
  | PNum q => negb (Qeq_bool q 0)
  | PStr s => negb (String.eqb s "")
  | PList l => match l with [] => false | _ => true end
  | PDict d => match d with [] => false | _ => true end
  end.

(** [int(q)]: truncation towards zero. *)
Definition py_int (q : Q) : Z := Z.quot (Qnum q) (Z.pos (Qden q)).

(** [range(start, stop, step)] as the list it enumerates. *)
Definition py_range (start stop step : Z) : result (list Z) :=
  if (step =? 0)%Z then Raise ValueError
  else
    let n := if (0 <? step)%Z
             then ((stop - start + step - 1) / step)%Z
             else ((start - stop - step - 1) / (- step))%Z in
    Ok (map (fun k => (start + Z.of_nat k * step)%Z) (seq 0 (Z.to_nat n))).

(** ** Strings *)

Definition upper_ascii (c : ascii) : ascii :=
  let n := nat_of_ascii c in
  if (97 <=? n)%nat && (n <=? 122)%nat then ascii_of_nat (n - 32) else c.

Definition lower_ascii (c : ascii) : ascii :=
  let n := nat_of_ascii c in
  if (65 <=? n)%nat && (n <=? 90)%nat then ascii_of_nat (n + 32) else c.

Fixpoint map_string (f : ascii -> ascii) (s : string) : string :=
  match s with
  | EmptyString => EmptyString
  | String c s' => String (f c) (map_string f s')
  end.

Definition upper (s : string) : string := map_string upper_ascii s.
Definition lower (s : string) : string := map_string lower_ascii s.

Definition capitalize (s : string) : string :=
  match s with
  | EmptyString => EmptyString
  | String c s' => String (upper_ascii c) (lower s')
  end.

(** [pat in s]: [pat] occurs in [s] at some position. *)
Fixpoint starts_with (pat s : string) : bool :=
  match pat, s with
  | EmptyString, _ => true
  | String p pat', String c s' => Ascii.eqb p c && starts_with pat' s'
  | String _ _, EmptyString => false
  end.

Fixpoint is_substring (pat s : string) : bool :=
  starts_with pat s ||
  match s with
  | EmptyString => false
  | String _ s' => is_substring pat s'
  end.

(** ** The exchange *)

(** The four endpoints the script calls. *)
Inductive url : Type :=
| ticker (asset : string)                         (* public/ticker, {asset}-PERPETUAL *)
| get_instruments (asset : string)                (* public/get_instruments, kind=option *)
| get_book_summary_by_instrument (name : string)
| get_greeks (name : string).

Record response : Type := {
  status_code : Z;
  body : option pyval      (* the decoded body; [None] when it is not JSON *)
}.

(** What one [requests.get] meets: no answer at all, or a response. *)
Inductive outcome : Type :=
| ConnectionFailed
| Responded (r : response).

(** [response.json()]. *)
Definition json (r : response) : result pyval :=
  match body r with
  | Some v => Ok v
  | None => Raise JSONDecodeError
  end.

(** ** Rows of the chain *)

Record Row : Type := {
  idx : nat;               (* the row's label in the DataFrame index *)
  Instrument : string;
  Expiry : string;
  Strike : Q;
  Type' : string;          (* column 'Type' *)
  IV : pyval;
  Bid : pyval;
  Ask : pyval;
  Greeks : pyval
}.

Definition DataFrame : Type := list Row.

(** [df.at[i, col] = v] for the four columns the enrichment writes. *)
Definition set_IV (i : nat) (v : pyval) (df : DataFrame) : DataFrame :=
  map (fun r => if Nat.eqb (idx r) i
                then {| idx := idx r; Instrument := Instrument r; Expiry := Expiry r;
                        Strike := Strike r; Type' := Type' r; IV := v;
                        Bid := Bid r; Ask := Ask r; Greeks := Greeks r |}
                else r) df.

Definition set_Bid (i : nat) (v : pyval) (df : DataFrame) : DataFrame :=
  map (fun r => if Nat.eqb (idx r) i
                then {| idx := idx r; Instrument := Instrument r; Expiry := Expiry r;
                        Strike := Strike r; Type' := Type' r; IV := IV r;
                        Bid := v; Ask := Ask r; Greeks := Greeks r |}
                else r) df.

Definition set_Ask (i : nat) (v : pyval) (df : DataFrame) : DataFrame :=
  map (fun r => if Nat.eqb (idx r) i
                then {| idx := idx r; Instrument := Instrument r; Expiry := Expiry r;
                        Strike := Strike r; Type' := Type' r; IV := IV r;
                        Bid := Bid r; Ask := v; Greeks := Greeks r |}
                else r) df.

Definition set_Greeks (i : nat) (v : pyval) (df : DataFrame) : DataFrame :=
  map (fun r => if Nat.eqb (idx r) i
                then {| idx := idx r; Instrument := Instrument r; Expiry := Expiry r;
                        Strike := Strike r; Type' := Type' r; IV := IV r;
                        Bid := Bid r; Ask := Ask r; Greeks := v |}
                else r) df.

(** ** Network calls: the [IO] monad *)

(** A computation that issues requests: from the number of requests issued
    so far to its value and the new count, or to an exception. *)
Definition IO (A : Type) : Type := nat -> result (A * nat).

Definition io_ret {A} (a : A) : IO A := fun n => Ok (a, n).

Definition io_bind {A B} (m : IO A) (k : A -> IO B) : IO B :=
  fun n => match m n with
           | Ok (a, n') => k a n'
           | Raise e => Raise e
           end.

Definition lift {A} (m : result A) : IO A :=
  fun n => match m with
           | Ok a => Ok (a, n)
           | Raise e => Raise e
           end.

Declare Scope io_scope.
Delimit Scope io_scope with io.
Notation "x <- m ;; k" := (io_bind m (fun x => k))
  (at level 61, m at next level, right associativity) : io_scope.

Section Fetch.

(** The exchange: what the [n]-th request of the run, sent to [u], meets. *)
Variable net : nat -> url -> outcome.

(** [datetime.fromtimestamp(t).strftime('%d%b%y')] in the local time zone. *)
Variable strftime_dby : Q -> result string.

Definition requests_get (u : url) : IO response :=
  fun n => match net n u with
           | ConnectionFailed => Raise ConnectionError
           | Responded r => Ok (r, S n)
           end.

(** *** [get_spot_price]: the body of the function, which runs when the
    call misses the cache ([cache_data] below is the decorator) *)
Definition get_spot_price (asset : string) : IO pyval :=
  (response <- requests_get (ticker asset) ;;
   if (status_code response =? 200)%Z
   then lift (j <- json response ;;
              data <- subscript j "result" ;;
              subscript data "last_price")%result
   else io_ret PNone)%io.

(** *** [get_options_chain]: the body of the function, which runs when
    the call misses the cache *)

(** One turn of the loop: the entry appended for [inst]; [i] is the label
    the entry gets when the list becomes a DataFrame. *)
Definition chain_entry (i : nat) (inst : pyval) : result Row :=
  (ts <- subscript inst "expiration_timestamp" ;;
   t <- num ts ;;
   d <- strftime_dby (t / 1000) ;;
   name <- subscript inst "instrument_name" ;;
   name <- match name with
           | PStr s => Ok s
           | _ => Raise NotModelled      (* a name that is not a string *)
           end ;;
   strike <- subscript inst "strike" ;;
   strike <- match strike with
             | PNum q => Ok q
             | _ => Raise NotModelled    (* a strike that is not a number *)
             end ;;
   ty <- subscript inst "option_type" ;;
   ty' <- match ty with
          | PStr s => Ok (capitalize s)
          | _ => Raise AttributeError
          end ;;
   Ok {| idx := i; Instrument := name; Expiry := upper d; Strike := strike;
         Type' := ty'; IV := PNone; Bid := PNone; Ask := PNone;
         Greeks := PDict [] |})%result.

Fixpoint build_chain (i : nat) (instruments : list pyval) : result DataFrame :=
  match instruments with
  | [] => Ok []
  | inst :: rest =>
      (row <- chain_entry i inst ;;
       chain <- build_chain (S i) rest ;;
       Ok (row :: chain))%result
  end.

Definition get_options_chain (asset : string) : IO DataFrame :=
  (response <- requests_get (get_instruments asset) ;;
   if (status_code response =? 200)%Z
   then lift (j <- json response ;;
              result <- subscript j "result" ;;
              instruments <- py_iter result ;;
              build_chain 0 instruments)%result
   else io_ret [])%io.

(** *** [enrich_chain_with_data] *)

(** The body of the loop for the row labelled [i] with instrument [name]. *)
Definition enrich_row (i : nat) (name : string) (df : DataFrame) : IO DataFrame :=
  (response <- requests_get (get_book_summary_by_instrument name) ;;
   df1 <- (if (status_code response =? 200)%Z
           then lift (j <- json response ;;
                      res <- subscript j "result" ;;
                      summary <- subscript0 res ;;
                      iv <- dict_get summary "mark_iv" ;;
                      bid <- dict_get summary "bid_price" ;;
                      ask <- dict_get summary "ask_price" ;;
                      Ok (set_Ask i ask (set_Bid i bid (set_IV i iv df))))%result
           else io_ret df) ;;
   g_response <- requests_get (get_greeks name) ;;
   if (status_code g_response =? 200)%Z
   then lift (j <- json g_response ;;
              g_data <- subscript j "result" ;;
              delta <- dict_get g_data "delta" ;;
              gamma <- dict_get g_data "gamma" ;;
              vega <- dict_get g_data "vega" ;;
              theta <- dict_get g_data "theta" ;;
              rho <- dict_get g_data "rho" ;;
              Ok (set_Greeks i (PDict [("Delta", delta); ("Gamma", gamma);
                                       ("Vega", vega); ("Theta", theta);
                                       ("Rho", rho)]%string) df1))%result
   else io_ret df1)%io.

(** [for idx, row in df.iterrows()]: the labels and names are read from
    the frame as it was when the loop started; the writes go to [df]. *)
Fixpoint enrich_loop (rows : list Row) (df : DataFrame) : IO DataFrame :=
  match rows with
  | [] => io_ret df
  | row :: rest =>
      (df' <- enrich_row (idx row) (Instrument row) df ;;
       enrich_loop rest df')%io
  end.

Definition enrich_chain_with_data (df : DataFrame) (asset : string) : IO DataFrame :=
  enrich_loop df df.

End Fetch.

(** ** Filtering the chain *)

(** [Series.str.contains(pat)] searches a regular expression.  The
    fragment modelled: a pattern of ordinary characters and [.], which
    matches any character but a newline.  A pattern with another special
    character is outside the fragment. *)
Inductive tok : Type :=
| Lit (c : ascii)
| AnyChar.

Definition is_special (c : ascii) : bool :=
  existsb (Ascii.eqb c) (list_ascii_of_string "\^$*+?{}[]()|").

Fixpoint re_compile (pat : string) : result (list tok) :=
  match pat with
  | EmptyString => Ok []
  | String c pat' =>
      if is_special c then Raise NotModelled
      else (ts <- re_compile pat' ;;
            Ok ((if Ascii.eqb c "." then AnyChar else Lit c) :: ts))%result
  end.

Definition tok_matches (t : tok) (c : ascii) : bool :=
  match t with
  | Lit a => Ascii.eqb a c
  | AnyChar => negb (Ascii.eqb c "010")
  end.

Fixpoint re_match (ts : list tok) (s : string) : bool :=
  match ts, s with
  | [], _ => true
  | t :: ts', String c s' => tok_matches t c && re_match ts' s'
  | _ :: _, EmptyString => false
  end.

Fixpoint re_search (ts : list tok) (s : string) : bool :=
  re_match ts s ||
  match s with
  | EmptyString => false
  | String _ s' => re_search ts s'
  end.

(** [df[df['Expiry'].str.contains(pat)]] *)
Definition filter_expiry (pat : string) (df : DataFrame) : result DataFrame :=
  (ts <- re_compile pat ;;
   Ok (filter (fun r => re_search ts (Expiry r)) df))%result.

(** [df[df['Type'] == option_type]] *)
Definition filter_type (option_type : string) (df : DataFrame) : DataFrame :=
  filter (fun r => String.eqb (Type' r) option_type) df.

(** One cell of [df['IV'] >= min_iv] on an object column: a missing value
    compares false, a number is compared, anything else cannot be. *)
Definition iv_ge (v : pyval) (min_iv : Z) : result bool :=
  match v with
  | PNone => Ok false
  | _ => match as_num v with
         | Some q => Ok (Qle_bool (inject_Z min_iv) q)
         | None => Raise TypeError
         end
  end.

(** [df[df['IV'] >= min_iv]] *)
Fixpoint filter_iv (min_iv : Z) (df : DataFrame) : result DataFrame :=
  match df with
  | [] => Ok []
  | r :: df' =>
      (keep <- iv_ge (IV r) min_iv ;;
       rest <- filter_iv min_iv df' ;;
       Ok (if keep then r :: rest else rest))%result
  end.

(** ** Payoff and risk figures *)

Inductive OptionType : Type := Call | Put.   (* the two choices of the sidebar *)

Definition label (t : OptionType) : string :=
  match t with Call => "Call" | Put => "Put" end.

(** [max(a, b)] *)
Definition py_max (a b : Q) : Q := if Qlt_le_dec a b then b else a.

(** [premium = (row['Bid'] + row['Ask']) / 2 if row['Ask'] and row['Bid'] else 0] *)
Definition premium_of (row : Row) : result Q :=
  if truthy (Ask row) && truthy (Bid row)
  then (b <- num (Bid row) ;;
        a <- num (Ask row) ;;
        Ok ((b + a) / 2))%result
  else Ok 0.

(** [if premium == 0: st.warning(...)] *)
Definition premium_warning (premium : Q) : bool := Qeq_bool premium 0.

(** A value that an [int64] cell of a Series holds as it is. *)
Definition int64 (z : Z) : bool :=
  ((- 2 ^ 63 <=? z) && (z <? 2 ^ 63))%Z.

(** [pd.Series(range(int(spot * 0.5), int(spot * 1.5), int(spot * 0.01)))]:
    [range] is built first, then the Series of its elements. *)
Definition price_grid (spot_price : pyval) : result (list Z) :=
  (s <- num spot_price ;;
   let start := py_int (s * (1 # 2)) in
   let stop := py_int (s * (3 # 2)) in
   prices <- py_range start stop (py_int (s * (1 # 100))) ;;
   if int64 start && int64 stop then Ok prices else Raise NotModelled)%result.

(** [lambda p: max(p - strike, 0)] and [lambda p: max(strike - p, 0)] *)
Definition intrinsic (t : OptionType) (strike : Q) (p : Z) : Q :=
  match t with
  | Call => py_max (inject_Z p - strike) 0
  | Put => py_max (strike - inject_Z p) 0
  end.

(** [payoff = premium - prices.apply(...)] then [payoff *= amount_to_sell] *)
Definition payoff_curve (t : OptionType) (strike premium amount_to_sell : Q)
    (prices : list Z) : list Q :=
  let payoff := map (fun x => premium - x) (map (intrinsic t strike) prices) in
  map (fun x => x * amount_to_sell) payoff.

Inductive MaxLoss : Type :=
| Unlimited
| Loss (q : Q).

(** [Loss q] up to the equality of rationals. *)
Definition max_loss_is (m : MaxLoss) (expected : MaxLoss) : Prop :=
  match m, expected with
  | Unlimited, Unlimited => True
  | Loss a, Loss b => a == b
  | _, _ => False
  end.

Definition max_profit_of (premium amount_to_sell : Q) : Q := premium * amount_to_sell.

Definition breakeven_of (t : OptionType) (strike premium : Q) : Q :=
  match t with Call => strike + premium | Put => strike - premium end.

Definition max_loss_of (t : OptionType) (strike amount_to_sell : Q) : MaxLoss :=
  match t with Call => Unlimited | Put => Loss (strike * amount_to_sell) end.

Record Payoff : Type := {
  premium : Q;
  warning : bool;
  prices : list Z;
  payoff : list Q;
  max_profit : Q;
  breakeven : Q;
  max_loss : MaxLoss
}.

(** The block under [if selected_instrument:]. *)
Definition payoff_block (row : Row) (t : OptionType) (amount_to_sell : Q)
    (spot_price : pyval) : result Payoff :=
  (let strike := Strike row in
   premium <- premium_of row ;;
   prices <- price_grid spot_price ;;
   Ok {| premium := premium;
         warning := premium_warning premium;
         prices := prices;
         payoff := payoff_curve t strike premium amount_to_sell prices;
         max_profit := max_profit_of premium amount_to_sell;
         breakeven := breakeven_of t strike premium;
         max_loss := max_loss_of t strike amount_to_sell |})%result.

(** ** The script *)

Record Sidebar : Type := {
  asset : string;
  option_type : OptionType;
  expiry_filter : string;
  min_iv : Z;
  amount_to_sell : Q
}.

(** [st.selectbox(label, options)]: the option the user picked (the first
    by default), [None] when there is nothing to pick. *)
Definition selectbox (options : list string) (choice : nat) : option string :=
  match options with
  | [] => None
  | o :: _ => Some (nth choice options o)
  end.

(** [df[df['Instrument'] == name].iloc[0]] *)
Definition first_named (name : string) (df : DataFrame) : result Row :=
  match find (fun r => String.eqb (Instrument r) name) df with
  | Some r => Ok r
  | None => Raise IndexError
  end.

Record Page : Type := {
  spot : pyval;
  chain : option DataFrame;     (* [None]: "Failed to fetch options chain." *)
  payoff_view : option Payoff   (* [None]: the payoff block did not run *)
}.

(** [f"${spot_price:,.2f}"]: the format [,.2f] applies to numbers only. *)
Definition format_money (v : pyval) : result unit :=
  match v with
  | PNum _ | PBool _ => Ok tt
  | PStr _ => Raise ValueError
  | PNone | PList _ | PDict _ => Raise TypeError
  end.

(** Lines 92-95: the metric is formatted when the spot price is truthy. *)
Definition spot_metric (spot_price : pyval) : result unit :=
  if truthy spot_price then format_money spot_price else Ok tt.

(** [fig.add_vline(x=x, ..., annotation_text=...)]: placing the annotation
    computes with [x]; [None] raises.  Other values that are not numbers
    are outside the model. *)
Definition add_vline (x : pyval) : result unit :=
  match x with
  | PNum _ | PBool _ => Ok tt
  | PNone => Raise TypeError
  | _ => Raise NotModelled
  end.

(** Lines 122-128: the IV chart, drawn when the chain shown is not empty. *)
Definition iv_smile (spot_price : pyval) (chain_df : DataFrame) : result unit :=
  match chain_df with
  | [] => Ok tt
  | _ :: _ => add_vline spot_price
  end.

(** The entries of the two [st.cache_data] stores that are still fresh
    when a run starts, by asset. *)
Record Cache : Type := {
  cached_spot : string -> option pyval;        (* ttl=60 *)
  cached_chain : string -> option DataFrame    (* ttl=300 *)
}.

(** A call of a function decorated with [@st.cache_data]: a fresh entry is
    returned as it is and the body does not run; without one the body
    runs (and its value, if it returns, is what later runs find). *)
Definition cache_data {A} (entry : option A) (body : IO A) : IO A :=
  match entry with
  | Some v => io_ret v
  | None => body
  end.

Definition no_cache : Cache :=
  {| cached_spot := fun _ => None; cached_chain := fun _ => None |}.

Section Script.

Variable net : nat -> url -> outcome.
Variable strftime_dby : Q -> result string.

(** [df.sort_values(by='Strike')], with pandas' default [kind='quicksort']. *)
Variable sort_values : DataFrame -> DataFrame.

(** The part of the script under [if selected_instrument:] with its guard. *)
Definition payoff_section (inp : Sidebar) (spot_price : pyval) (chain_df : DataFrame)
    (choice : nat) : result (option Payoff) :=
  match selectbox (map Instrument chain_df) choice with
  | Some selected_instrument =>
      if negb (String.eqb selected_instrument "")
      then (row <- first_named selected_instrument chain_df ;;
            p <- payoff_block row (option_type inp) (amount_to_sell inp) spot_price ;;
            Ok (Some p))%result
      else Ok None
  | None => Ok None
  end.

(** Lines 100-102: the filters that run before the enrichment. *)
Definition prefilter (inp : Sidebar) (chain_df : DataFrame) : result DataFrame :=
  (chain_df <- (if negb (String.eqb (expiry_filter inp) "")
                then filter_expiry (upper (expiry_filter inp)) chain_df
                else Ok chain_df) ;;
   Ok (filter_type (label (option_type inp)) chain_df))%result.

(** Lines 100-105: the filters, the enrichment and the sort. *)
Definition filtered_chain (inp : Sidebar) (chain_df : DataFrame) : IO DataFrame :=
  (chain_df <- lift (prefilter inp chain_df) ;;
   chain_df <- enrich_chain_with_data net chain_df (asset inp) ;;
   chain_df <- lift (filter_iv (min_iv inp) chain_df) ;;
   io_ret (sort_values chain_df))%io.

(** The two decorated functions, as the script calls them. *)
Definition cached_get_spot_price (cache : Cache) (asset : string) : IO pyval :=
  cache_data (cached_spot cache asset) (get_spot_price net asset).

Definition cached_get_options_chain (cache : Cache) (asset : string)
    : IO DataFrame :=
  cache_data (cached_chain cache asset) (get_options_chain net strftime_dby asset).

(** One run of the script. *)
Definition script (cache : Cache) (inp : Sidebar) (choice : nat) : IO Page :=
  (spot_price <- cached_get_spot_price cache (asset inp) ;;
   _ <- lift (spot_metric spot_price) ;;
   chain_df <- cached_get_options_chain cache (asset inp) ;;
   match chain_df with
   | _ :: _ =>
       chain_df <- filtered_chain inp chain_df ;;
       _ <- lift (iv_smile spot_price chain_df) ;;
       p <- lift (payoff_section inp spot_price chain_df choice) ;;
       io_ret {| spot := spot_price; chain := Some chain_df; payoff_view := p |}
   | [] =>
       io_ret {| spot := spot_price; chain := None; payoff_view := None |}
   end)%io.

End Script.

(** ** What the enrichment reads from a response *)

(** The three cells written from a quote-summary response (lines 71-74). *)
Definition summary_cells (r : response) : result (pyval * pyval * pyval) :=
  (j <- json r ;;
   res <- subscript j "result" ;;
   summary <- subscript0 res ;;
   iv <- dict_get summary "mark_iv" ;;
   bid <- dict_get summary "bid_price" ;;
   ask <- dict_get summary "ask_price" ;;
   Ok (iv, bid, ask))%result.

(** The cell written from a Greeks response (lines 80-87). *)
Definition greeks_cell (r : response) : result pyval :=
  (j <- json r ;;
   g_data <- subscript j "result" ;;
   delta <- dict_get g_data "delta" ;;
   gamma <- dict_get g_data "gamma" ;;
   vega <- dict_get g_data "vega" ;;
   theta <- dict_get g_data "theta" ;;
   rho <- dict_get g_data "rho" ;;
   Ok (PDict [("Delta", delta); ("Gamma", gamma); ("Vega", vega);
              ("Theta", theta); ("Rho", rho)]%string))%result.

(** A request that does not raise: it is answered, and an answer with
    status 200 carries a payload that [read] accepts. *)
Definition answered {A} (o : outcome) (read : response -> result A) : Prop :=
  exists r, o = Responded r /\
            ((status_code r = 200)%Z -> exists c, read r = Ok c).

(** No request of the enrichment of [df], started after [n] requests,
    raises: row [k] sends requests number [n + 2k] and [n + 2k + 1]. *)
Definition quiet (net : nat -> url -> outcome) (n : nat) (df : DataFrame) : Prop :=
  forall k row, nth_error df k = Some row ->
    answered (net (n + 2 * k)%nat (get_book_summary_by_instrument (Instrument row)))
             summary_cells /\
    answered (net (n + 2 * k + 1)%nat (get_greeks (Instrument row))) greeks_cell.

(** [df.at[i, ...] = ...] in general: the rows labelled [i] become [f row]. *)
Definition update_at (i : nat) (f : Row -> Row) (df : DataFrame) : DataFrame :=
  map (fun r => if Nat.eqb (idx r) i then f r else r) df.

Definition with_quote (c : pyval * pyval * pyval) (r : Row) : Row :=
  let '(iv, bid, ask) := c in
  {| idx := idx r; Instrument := Instrument r; Expiry := Expiry r;
     Strike := Strike r; Type' := Type' r; IV := iv; Bid := bid; Ask := ask;
     Greeks := Greeks r |}.

Definition with_greeks (g : pyval) (r : Row) : Row :=
  {| idx := idx r; Instrument := Instrument r; Expiry := Expiry r;
     Strike := Strike r; Type' := Type' r; IV := IV r; Bid := Bid r;
     Ask := Ask r; Greeks := g |}.

(** The row that the loop leaves for [row] when its two requests are
    number [m] and [m + 1] and neither raises. *)
Definition enriched_row (net : nat -> url -> outcome) (m : nat) (row : Row) : Row :=
  let row1 :=
    match net m (get_book_summary_by_instrument (Instrument row)) with
    | Responded rs =>
        if (status_code rs =? 200)%Z
        then match summary_cells rs with
             | Ok c => with_quote c row
             | Raise _ => row
             end
        else row
    | ConnectionFailed => row
    end in
  match net (S m) (get_greeks (Instrument row)) with
  | Responded rg =>
      if (status_code rg =? 200)%Z
      then match greeks_cell rg with
           | Ok g => with_greeks g row1
           | Raise _ => row1
           end
      else row1
  | ConnectionFailed => row1
  end.

Fixpoint enriched_rows (net : nat -> url -> outcome) (m : nat) (rows : list Row)
    : list Row :=
  match rows with
  | [] => []
  | row :: rest => enriched_row net m row :: enriched_rows net (S (S m)) rest
  end.

(** ** Sample exchanges and frames *)

Definition net_down : nat -> url -> outcome := fun _ _ => ConnectionFailed.

Definition net_garbled : nat -> url -> outcome :=
  fun _ _ => Responded {| status_code := 200; body := None |}.

Definition net_unavailable : nat -> url -> outcome :=
  fun _ _ => Responded {| status_code := 503; body := None |}.

Definition strftime_sample : Q -> result string := fun _ => Ok "27Sep24"%string.

Definition sample_row (i : nat) (name expiry : string) (strike : Q) (ty : string)
    : Row :=
  {| idx := i; Instrument := name; Expiry := expiry; Strike := strike;
     Type' := ty; IV := PNone; Bid := PNone; Ask := PNone; Greeks := PDict [] |}.

Definition two_calls : DataFrame :=
  [sample_row 0 "BTC-27SEP24-60000-C" "27SEP24" 60000 "Call";
   sample_row 1 "BTC-27SEP24-65000-C" "27SEP24" 65000 "Call"]%string.

Definition summary_payload (iv bid ask : pyval) : pyval :=
  PDict [("result", PList [PDict [("mark_iv", iv); ("bid_price", bid);
                                  ("ask_price", ask)]])]%string.

Definition greeks_payload : pyval :=
  PDict [("result", PDict [("delta", PNum (1 # 2)); ("gamma", PNum (1 # 1000));
                           ("vega", PNum 12); ("theta", PNum (-30));
                           ("rho", PNum 3)])]%string.

Definition ok_response (v : pyval) : outcome :=
  Responded {| status_code := 200; body := Some v |}.

(** Quotes for every instrument but the 60000 call, whose quote summary is
    refused with status 503. *)
Definition net_one_refused : nat -> url -> outcome :=
  fun _ u =>
    match u with
    | get_book_summary_by_instrument name =>
        if String.eqb name "BTC-27SEP24-60000-C"
        then Responded {| status_code := 503; body := None |}
        else ok_response (summary_payload (PNum 55) (PNum (1 # 100)) (PNum (3 # 100)))
    | get_greeks _ => ok_response greeks_payload
    | _ => Responded {| status_code := 404; body := None |}
    end.

(** The same, but the 60000 call's quote summary is a 200 answer with an
    empty result list. *)
Definition net_one_empty : nat -> url -> outcome :=
  fun _ u =>
    match u with
    | get_book_summary_by_instrument name =>
        if String.eqb name "BTC-27SEP24-60000-C"
        then ok_response (PDict [("result", PList [])]%string)
        else ok_response (summary_payload (PNum 55) (PNum (1 # 100)) (PNum (3 # 100)))
    | get_greeks _ => ok_response greeks_payload
    | _ => Responded {| status_code := 404; body := None |}
    end.

(** The connection drops at the third request of the run. *)
Definition net_drops_at_third : nat -> url -> outcome :=
  fun n u => if Nat.eqb n 2 then ConnectionFailed else net_one_refused n u.

(** Every instrument is quoted with the given IV. *)
Definition net_quoted (iv : pyval) : nat -> url -> outcome :=
  fun _ u =>
    match u with
    | get_book_summary_by_instrument _ =>
        ok_response (summary_payload iv (PNum (1 # 100)) (PNum (3 # 100)))
    | get_greeks _ => ok_response greeks_payload
    | _ => Responded {| status_code := 404; body := None |}
    end.

(** Two calls with the same strike, fetched in the order of their labels. *)
Definition two_calls_one_strike : DataFrame :=
  [sample_row 0 "BTC-27SEP24-60000-C" "27SEP24" 60000 "Call";
   sample_row 1 "BTC-25OCT24-60000-C" "25OCT24" 60000 "Call"]%string.

Definition sample_sidebar (filter : string) (threshold : Z) : Sidebar :=
  {| asset := "BTC"; option_type := Call; expiry_filter := filter;
     min_iv := threshold; amount_to_sell := 1 |}.

(** ** What pandas promises of [sort_values] *)

Definition strike_le (a b : Row) : Prop := Strike a <= Strike b.

(** With the default [kind='quicksort']: the rows, rearranged, in
    non-decreasing order of the key.  (Only [kind='mergesort'] and
    [kind='stable'] promise more.) *)
Definition sort_contract (sort_values : DataFrame -> DataFrame) : Prop :=
  forall df, Permutation df (sort_values df) /\
             StronglySorted strike_le (sort_values df).


(** Two sorts by insertion that meet the contract: [skip x y] says that
    [y], already placed, stays before the new key [x]. *)
Fixpoint insert_by (skip : Q -> Q -> bool) (r : Row) (l : list Row) : list Row :=
  match l with
  | [] => [r]
  | y :: l' => if skip (Strike r) (Strike y)
               then y :: insert_by skip r l'
               else r :: l
  end.

Definition sort_by (skip : Q -> Q -> bool) (df : DataFrame) : DataFrame :=
  fold_right (insert_by skip) [] df.

(** Equal keys keep their order. *)
Definition sort_stable : DataFrame -> DataFrame :=
  sort_by (fun x y => negb (Qle_bool x y)).

(** Equal keys end up in reverse order. *)
Definition sort_ties_reversed : DataFrame -> DataFrame :=
  sort_by (fun x y => Qle_bool y x).

(** ** Literal patterns *)

(** A pattern without any character that is special in a regular
    expression. *)
Definition literal (pat : string) : bool :=
  forallb (fun c => negb (is_special c) && negb (Ascii.eqb c "."))
          (list_ascii_of_string pat).

(** ** A sample run *)

Definition instrument_record (name : string) (strike : Q) (ty : string) : pyval :=
  PDict [("instrument_name", PStr name); ("strike", PNum strike);
         ("option_type", PStr ty);
         ("expiration_timestamp", PNum 1727424000000)]%string.

(** The exchange lists two calls and a put, quotes each with the IV [iv],
    and gives 60000 as the last price of the perpetual. *)
Definition net_sample (iv : pyval) : nat -> url -> outcome :=
  fun _ u =>
    match u with
    | ticker _ =>
        ok_response (PDict [("result", PDict [("last_price", PNum 60000)])]%string)
    | get_instruments _ =>
        ok_response
          (PDict [("result",
                   PList [instrument_record "BTC-27SEP24-65000-C" 65000 "call";
                          instrument_record "BTC-27SEP24-60000-P" 60000 "put";
                          instrument_record "BTC-27SEP24-60000-C" 60000 "call"])]%string)
    | get_book_summary_by_instrument _ =>
        ok_response (summary_payload iv (PNum (1 # 100)) (PNum (3 # 100)))
    | get_greeks _ => ok_response greeks_payload
    end.

(** The 60000 call of 27SEP24 with the given bid and ask. *)
Definition quoted_row (bid ask : pyval) : Row :=
  {| idx := 0; Instrument := "BTC-27SEP24-60000-C"; Expiry := "27SEP24";
     Strike := 60000; Type' := "Call"; IV := PNum 55; Bid := bid; Ask := ask;
     Greeks := PDict [] |}.

(** The columns that the enrichment does not write. *)
Definition static (r : Row) : nat * string * string * Q * string :=
  (idx r, Instrument r, Expiry r, Strike r, Type' r).

(** A cell of the column 'IV' that holds a number at least [min_iv]. *)
Definition iv_present_ge (v : pyval) (min_iv : Z) : Prop :=
  exists q, as_num v = Some q /\ v <> PNone /\ inject_Z min_iv <= q.

(** The same as a test: [None] and values that are not numbers fail. *)
Definition iv_passes (v : pyval) (min_iv : Z) : bool :=
  match v with
  | PNone => false
  | _ => match as_num v with
         | Some q => Qle_bool (inject_Z min_iv) q
         | None => false
         end
  end.

(** The rows that the filters on type and expiry are meant to keep. *)
Definition type_and_expiry (inp : Sidebar) (r : Row) : bool :=
  String.eqb (Type' r) (label (option_type inp)) &&
  (String.eqb (expiry_filter inp) "" ||
   is_substring (upper (expiry_filter inp)) (Expiry r)).

(** The row that an instrument record decodes to. *)
Definition decodes_to (inst : pyval) (row : Row) : Prop :=
  subscript inst "instrument_name" = Ok (PStr (Instrument row)) /\
  subscript inst "strike" = Ok (PNum (Strike row)) /\
  (exists s, subscript inst "option_type" = Ok (PStr s) /\
             Type' row = capitalize s) /\
  (exists ts, subscript inst "expiration_timestamp" = Ok ts /\
              as_num ts <> None).

(** A Greeks cell as the script leaves it: the empty dict of a fetched
    row, or a dict with exactly the five keys of lines 82-86. *)
Definition greeks_shape (g : pyval) : Prop :=
  g = PDict [] \/
  exists d, g = PDict d /\
            map fst d = ["Delta"; "Gamma"; "Vega"; "Theta"; "Rho"]%string.

(** The 3000 put of 27SEP24 with the given bid and ask. *)
Definition put_3000 (bid ask : pyval) : Row :=
  {| idx := 0; Instrument := "ETH-27SEP24-3000-P"; Expiry := "27SEP24";
     Strike := 3000; Type' := "Put"; IV := PNum 60; Bid := bid; Ask := ask;
     Greeks := PDict [] |}.

(** The sample exchange, but the ticker request is refused. *)
Definition net_no_ticker : nat -> url -> outcome :=
  fun n u =>
    match u with
    | ticker _ => Responded {| status_code := 503; body := None |}
    | _ => net_sample (PNum 55) n u
    end.

(** ** numpy's sort of kind 'quicksort'

    [sort_values(by='Strike')] sorts the rows by [argsort] of the column
    with numpy's default kind: an introsort that partitions segments of
    more than 17 elements around a median of three and finishes the
    others by insertion.  Segments are lists here; the two scans of a
    partition ([++pi], [--pj]) are [span]s from the two ends.  The
    fall-back to heapsort, when the depth limit is used up, is outside
    the model ([None]). *)













(** * Properties *)

(** ** Premium *)

Lemma truthy_num (q : Q) : truthy (PNum q) = negb (Qeq_bool q 0).
Proof. reflexivity. Qed.

Lemma Qeq_bool_false (x y : Q) : ~ x == y -> Qeq_bool x y = false.
Proof.
  intros H. destruct (Qeq_bool x y) eqn:E; [|reflexivity].
  apply Qeq_bool_eq in E. contradiction.
Qed.

(** C1, as amended: when bid and ask are both present and both non-zero
    the premium is their midpoint [(bid + ask) / 2]; when either is absent
    the premium is 0, the warning is raised, and no exception is. *)
Theorem premium_midpoint (row : Row) :
  (forall b a, Bid row = PNum b -> Ask row = PNum a -> ~ b == 0 -> ~ a == 0 ->
     premium_of row = Ok ((b + a) / 2)) /\
  (Bid row = PNone \/ Ask row = PNone ->
     premium_of row = Ok 0 /\ premium_warning 0 = true).
Proof.
  unfold premium_of. split.
  - intros b a Hb Ha Hb0 Ha0. rewrite Hb, Ha, !truthy_num.
    rewrite (Qeq_bool_false _ _ Hb0), (Qeq_bool_false _ _ Ha0). reflexivity.
  - intros [H | H]; rewrite H; simpl.
    + rewrite andb_false_r. split; reflexivity.
    + split; reflexivity.
Qed.

(** C10: a bid or an ask that is present but equal to 0 gives the premium 0
    and the warning, as an absent one does. *)
Theorem premium_zero_quote (row : Row) (b a : Q) :
  Bid row = PNum b -> Ask row = PNum a -> b == 0 \/ a == 0 ->
  premium_of row = Ok 0 /\
  forall t amount spot_price p,
    price_grid spot_price = Ok p ->
    exists pf, payoff_block row t amount spot_price = Ok pf /\
               premium pf = 0 /\ warning pf = true.
Proof.
  intros Hb Ha H0.
  assert (E : premium_of row = Ok 0).
  { unfold premium_of. rewrite Hb, Ha, !truthy_num.
    destruct H0 as [H | H]; apply Qeq_bool_iff in H; rewrite H; simpl;
      [rewrite andb_false_r|]; reflexivity. }
  split; [exact E|].
  intros t amount spot_price p Hp. unfold payoff_block. rewrite E, Hp. simpl.
  eexists. split; [reflexivity|]. split; reflexivity.
Qed.

(** ** Payoff curve *)

Lemma py_max_Qmax (a b : Q) : py_max a b == Qmax a b.
Proof.
  unfold py_max. destruct (Qlt_le_dec a b) as [H | H].
  - symmetry. apply Q.max_r. apply Qlt_le_weak. exact H.
  - symmetry. apply Q.max_l. exact H.
Qed.

Lemma payoff_curve_nth (t : OptionType) (strike premium amount : Q)
    (prices : list Z) (k : nat) (p : Z) :
  nth_error prices k = Some p ->
  nth_error (payoff_curve t strike premium amount prices) k
  = Some ((premium - intrinsic t strike p) * amount).
Proof.
  intros H. unfold payoff_curve. rewrite !map_map.
  rewrite nth_error_map, H. reflexivity.
Qed.

(** C2: at every sample price [p] the short-call payoff is
    [(premium - max(p - strike, 0)) * contracts] and the short-put payoff is
    [(premium - max(strike - p, 0)) * contracts]; with strike 60000,
    premium 500, one call, the profit at 61000 is -500; and at a price equal
    to the strike the profit is [premium * contracts]. *)
Theorem short_option_payoff :
  (forall strike premium amount prices k p,
     nth_error prices k = Some p ->
     (exists y, nth_error (payoff_curve Call strike premium amount prices) k = Some y /\
                y == (premium - Qmax (inject_Z p - strike) 0) * amount) /\
     (exists y, nth_error (payoff_curve Put strike premium amount prices) k = Some y /\
                y == (premium - Qmax (strike - inject_Z p) 0) * amount)) /\
  (exists y, payoff_curve Call 60000 500 1 [61000%Z] = [y] /\ y == -500) /\
  (forall t strike premium amount p,
     inject_Z p == strike ->
     exists y, payoff_curve t strike premium amount [p] = [y] /\
               y == premium * amount).
Proof.
  split; [|split].
  - intros strike premium amount prices k p H. split.
    + eexists. split; [apply payoff_curve_nth; exact H|].
      simpl. rewrite py_max_Qmax. reflexivity.
    + eexists. split; [apply payoff_curve_nth; exact H|].
      simpl. rewrite py_max_Qmax. reflexivity.
  - eexists. split; [reflexivity|]. vm_compute. reflexivity.
  - intros t strike premium amount p H. eexists. split; [reflexivity|].
    assert (E : intrinsic t strike p == 0).
    { destruct t; simpl; rewrite py_max_Qmax; apply Q.max_r; rewrite H; lra. }
    change ((premium - intrinsic t strike p) * amount == premium * amount).
    rewrite E. ring.
Qed.

(** ** Risk figures *)

(** C3: for every row, option type, contract count and spot for which the
    premium and the price grid are computed, the payoff block returns, and
    its risk figures are those of the premium of the row: max profit
    [premium * contracts]; breakeven [strike + premium] for a call and
    [strike - premium] for a put; max loss unlimited for a call and
    [strike * contracts] for a put.  For a put of strike 3000 whose quotes
    give the premium 80, two contracts: 160, 2920 and 6000. *)
Theorem risk_summary :
  (forall row t amount spot_price pr grid,
     premium_of row = Ok pr ->
     price_grid spot_price = Ok grid ->
     exists pf,
       payoff_block row t amount spot_price = Ok pf /\
       premium pf = pr /\
       max_profit pf == pr * amount /\
       breakeven pf == match t with
                       | Call => Strike row + pr
                       | Put => Strike row - pr
                       end /\
       max_loss_is (max_loss pf)
                   match t with
                   | Call => Unlimited
                   | Put => Loss (Strike row * amount)
                   end) /\
  (forall row spot_price pr grid,
     Strike row == 3000 ->
     premium_of row = Ok pr -> pr == 80 ->
     price_grid spot_price = Ok grid ->
     exists pf,
       payoff_block row Put 2 spot_price = Ok pf /\
       max_profit pf == 160 /\
       breakeven pf == 2920 /\
       max_loss_is (max_loss pf) (Loss 6000)).
Proof.
  split.
  - intros row t amount spot_price pr grid Hp Hg.
    unfold payoff_block. rewrite Hp, Hg. simpl.
    eexists. split; [reflexivity|]. simpl.
    split; [reflexivity|]. split; [reflexivity|].
    destruct t; simpl; split; reflexivity.
  - intros row spot_price pr grid Hk Hp H80 Hg.
    unfold payoff_block. rewrite Hp, Hg. simpl.
    eexists. split; [reflexivity|]. simpl.
    unfold max_profit_of. rewrite H80, Hk.
    split; [reflexivity|]. split; reflexivity.
Qed.

(** ** The price grid *)

Lemma py_int_floor (q : Q) : 0 <= q -> py_int q = Qfloor q.
Proof.
  intros H. destruct q as [n d]. unfold py_int, Qfloor. simpl.
  apply Z.quot_div_nonneg; [|lia].
  unfold Qle in H. simpl in H. lia.
Qed.

Lemma py_range_up (start stop step : Z) :
  (0 < step)%Z ->
  py_range start stop step
  = Ok (map (fun k => (start + Z.of_nat k * step)%Z)
            (seq 0 (Z.to_nat ((stop - start + step - 1) / step)))).
Proof.
  intros H. unfold py_range.
  destruct (Z.eqb_spec step 0); [lia|].
  destruct (Z.ltb_spec 0 step); [reflexivity|lia].
Qed.

Lemma nth_error_range (f : nat -> Z) (n k : nat) (p : Z) :
  nth_error (map f (seq 0 n)) k = Some p -> (k < n)%nat /\ p = f k.
Proof.
  intros H. rewrite nth_error_map, nth_error_seq in H.
  destruct (Nat.ltb_spec k n) as [L | L]; [|discriminate].
  injection H as <-. split; [exact L|reflexivity].
Qed.

(** C8, as amended: for a spot of at least 100 whose [int(1.5 spot)] fits
    in 64 bits, the grid is [int(0.5 spot) + k * int(0.01 spot)] for
    [k = 0, ..., n - 1]: the step is at least 1, there are at least 100
    points, the last point is below [int(1.5 spot)] and less than one step
    away from it; for a spot in [0, 100) the step truncates to 0 and
    building the range raises [ValueError]. *)
Theorem price_grid_spec (s : Q) :
  (100 <= s -> (py_int (s * (3 # 2)) < 2 ^ 63)%Z ->
   exists n,
     price_grid (PNum s)
     = Ok (map (fun k => (py_int (s * (1 # 2))
                          + Z.of_nat k * py_int (s * (1 # 100)))%Z)
               (seq 0 n)) /\
     (1 <= py_int (s * (1 # 100)))%Z /\
     (100 <= n)%nat /\
     (py_int (s * (1 # 2)) + (Z.of_nat n - 1) * py_int (s * (1 # 100))
      < py_int (s * (3 # 2))
      <= py_int (s * (1 # 2)) + Z.of_nat n * py_int (s * (1 # 100)))%Z) /\
  (0 <= s -> s < 100 -> price_grid (PNum s) = Raise ValueError).
Proof.
  split.
  - intros Hs H63. unfold price_grid. simpl.
    rewrite !py_int_floor in * by lra.
    set (start := Qfloor (s * (1 # 2))) in *.
    set (stop := Qfloor (s * (3 # 2))) in *.
    set (step := Qfloor (s * (1 # 100))) in *.
    assert (Hstep : (1 <= step)%Z).
    { change 1%Z with (Qfloor (inject_Z 1)). apply Qfloor_resp_le.
      change (inject_Z 1) with 1. lra. }
    assert (Hstart0 : (0 <= start)%Z).
    { change 0%Z with (Qfloor (inject_Z 0)). apply Qfloor_resp_le.
      change (inject_Z 0) with 0. lra. }
    assert (Hstep_le : inject_Z step <= s * (1 # 100)) by apply Qfloor_le.
    assert (Hstart_le : inject_Z start <= s * (1 # 2)) by apply Qfloor_le.
    assert (Hstop_gt : s * (3 # 2) < inject_Z (stop + 1)) by apply Qlt_floor.
    rewrite inject_Z_plus in Hstop_gt.
    change (inject_Z 1) with 1 in Hstop_gt.
    assert (Hspan : (99 * step + 1 <= stop - start)%Z).
    { assert (L : (99 * step < stop - start)%Z); [|lia].
      rewrite Zlt_Qlt. unfold Z.sub.
      rewrite inject_Z_mult, inject_Z_plus, inject_Z_opp.
      change (inject_Z 99) with 99. lra. }
    set (n := ((stop - start + step - 1) / step)%Z).
    assert (Hn : (100 <= n)%Z).
    { apply Z.div_le_lower_bound; lia. }
    assert (Hlast : (n * step <= stop - start + step - 1)%Z).
    { rewrite Z.mul_comm. apply Z.mul_div_le. lia. }
    assert (Hnext : (stop - start + step - 1 < (n + 1) * step)%Z).
    { pose proof (Z.mod_pos_bound (stop - start + step - 1) step) as M.
      pose proof (Z.div_mod (stop - start + step - 1) step) as D.
      fold n in D. lia. }
    rewrite py_range_up by lia. fold n. simpl.
    assert (I : int64 start && int64 stop = true).
    { unfold int64. apply andb_true_iff. split; apply andb_true_iff; split;
        try apply Z.leb_le; try apply Z.ltb_lt; lia. }
    rewrite I. exists (Z.to_nat n). split; [reflexivity|].
    split; [exact Hstep|]. split; [lia|].
    rewrite Z2Nat.id by lia. lia.
  - intros H0 H100. unfold price_grid. simpl.
    rewrite !py_int_floor by lra.
    assert (E : Qfloor (s * (1 # 100)) = 0%Z).
    { assert (L : (0 <= Qfloor (s * (1 # 100)))%Z).
      { change 0%Z with (Qfloor (inject_Z 0)). apply Qfloor_resp_le.
        change (inject_Z 0) with 0. lra. }
      assert (U : (Qfloor (s * (1 # 100)) < 1)%Z).
      { rewrite Zlt_Qlt. change (inject_Z 1) with 1.
        apply Qle_lt_trans with (s * (1 # 100)); [apply Qfloor_le|lra]. }
      lia. }
    unfold py_range. rewrite E. reflexivity.
Qed.

(** ** Fetching *)

(** C4, as amended: when the exchange answers with a status other than 200,
    [get_spot_price] returns [None] and [get_options_chain] returns the
    empty frame, and nothing is raised; a connection failure raises
    [ConnectionError], and a 200 answer whose body is not JSON raises
    [JSONDecodeError], to the caller. *)
Theorem fetch_failure_policy (net : nat -> url -> outcome)
    (strftime_dby : Q -> result string) (asset : string) (n : nat) :
  (forall r, net n (ticker asset) = Responded r -> status_code r <> 200%Z ->
     get_spot_price net asset n = Ok (PNone, S n)) /\
  (forall r, net n (get_instruments asset) = Responded r -> status_code r <> 200%Z ->
     get_options_chain net strftime_dby asset n = Ok ([], S n)) /\
  (net n (ticker asset) = ConnectionFailed ->
     get_spot_price net asset n = Raise ConnectionError) /\
  (net n (get_instruments asset) = ConnectionFailed ->
     get_options_chain net strftime_dby asset n = Raise ConnectionError) /\
  (forall r, net n (ticker asset) = Responded r -> status_code r = 200%Z ->
     body r = None -> get_spot_price net asset n = Raise JSONDecodeError) /\
  (forall r, net n (get_instruments asset) = Responded r -> status_code r = 200%Z ->
     body r = None ->
     get_options_chain net strftime_dby asset n = Raise JSONDecodeError).
Proof.
  unfold get_spot_price, get_options_chain, io_bind, requests_get.
  repeat split.
  - intros r -> H. apply Z.eqb_neq in H. rewrite H. reflexivity.
  - intros r -> H. apply Z.eqb_neq in H. rewrite H. reflexivity.
  - intros ->. reflexivity.
  - intros ->. reflexivity.
  - intros r -> H B. rewrite H. unfold lift, json. rewrite B. reflexivity.
  - intros r -> H B. rewrite H. unfold lift, json. rewrite B. reflexivity.
Qed.

Lemma fetch_failure_policy_witness :
  get_spot_price net_unavailable "BTC" 0%nat = Ok (PNone, 1%nat) /\
  get_options_chain net_unavailable strftime_sample "BTC" 0%nat = Ok ([], 1%nat) /\
  get_spot_price net_down "BTC" 0%nat = Raise ConnectionError /\
  get_options_chain net_garbled strftime_sample "BTC" 0%nat = Raise JSONDecodeError.
Proof.
  pose proof (fetch_failure_policy net_unavailable strftime_sample "BTC" 0%nat)
    as (H1 & H2 & _).
  pose proof (fetch_failure_policy net_down strftime_sample "BTC" 0%nat)
    as (_ & _ & H3 & _).
  pose proof (fetch_failure_policy net_garbled strftime_sample "BTC" 0%nat)
    as (_ & _ & _ & _ & _ & H6).
  split; [|split; [|split]].
  - apply (H1 {| status_code := 503; body := None |}); [reflexivity|discriminate].
  - apply (H2 {| status_code := 503; body := None |}); [reflexivity|discriminate].
  - apply H3. reflexivity.
  - apply (H6 {| status_code := 200; body := None |}); reflexivity.
Defined.

(** C4 as stated fails: with the exchange unreachable [get_spot_price]
    raises, and with a 200 answer that is not JSON [get_options_chain]
    raises. *)
Lemma fetch_raises_counterexample :
  get_spot_price net_down "BTC" 0%nat = Raise ConnectionError /\
  get_options_chain net_garbled strftime_sample "BTC" 0%nat = Raise JSONDecodeError.
Proof. split; reflexivity. Qed.

(** ** Enrichment *)

Lemma set_quote (i : nat) (iv bid ask : pyval) (df : DataFrame) :
  set_Ask i ask (set_Bid i bid (set_IV i iv df))
  = update_at i (with_quote (iv, bid, ask)) df.
Proof.
  unfold set_Ask, set_Bid, set_IV, update_at. rewrite !map_map.
  apply map_ext. intros r.
  destruct (Nat.eqb (idx r) i) eqn:E; simpl; rewrite ?E; simpl; rewrite ?E;
    reflexivity.
Qed.

Lemma set_Greeks_update (i : nat) (g : pyval) (df : DataFrame) :
  set_Greeks i g df = update_at i (with_greeks g) df.
Proof. reflexivity. Qed.

Lemma update_at_absent (i : nat) (f : Row -> Row) (df : DataFrame) :
  ~ In i (map idx df) -> update_at i f df = df.
Proof.
  induction df as [|r df IH]; intros H; [reflexivity|].
  simpl in *. destruct (Nat.eqb_spec (idx r) i) as [E | E].
  - exfalso. apply H. left. exact E.
  - f_equal. apply IH. intros K. apply H. right. exact K.
Qed.

Lemma update_at_unique (i : nat) (f : Row -> Row) (done rest : list Row) (r : Row) :
  idx r = i -> ~ In i (map idx done) -> ~ In i (map idx rest) ->
  update_at i f (done ++ r :: rest) = done ++ f r :: rest.
Proof.
  intros E Hd Hr. unfold update_at. rewrite map_app. simpl.
  fold (update_at i f done). fold (update_at i f rest).
  rewrite (update_at_absent i f done Hd), (update_at_absent i f rest Hr).
  rewrite <- E, Nat.eqb_refl. reflexivity.
Qed.

(** [enrich_row] in terms of what it reads from its two responses. *)
Lemma enrich_row_eq (net : nat -> url -> outcome) (i : nat) (name : string)
    (df : DataFrame) (m : nat) :
  enrich_row net i name df m =
  match net m (get_book_summary_by_instrument name) with
  | ConnectionFailed => Raise ConnectionError
  | Responded rs =>
      match (if (status_code rs =? 200)%Z
             then bind (summary_cells rs) (fun c => Ok (update_at i (with_quote c) df))
             else Ok df) with
      | Raise e => Raise e
      | Ok df1 =>
          match net (S m) (get_greeks name) with
          | ConnectionFailed => Raise ConnectionError
          | Responded rg =>
              match (if (status_code rg =? 200)%Z
                     then bind (greeks_cell rg)
                               (fun g => Ok (update_at i (with_greeks g) df1))
                     else Ok df1) with
              | Raise e => Raise e
              | Ok df2 => Ok (df2, S (S m))
              end
          end
      end
  end.
Proof.
  unfold enrich_row, io_bind, requests_get.
  destruct (net m _) as [|rs]; [reflexivity|].
  assert (E1 : forall k : DataFrame -> IO DataFrame,
    match (if (status_code rs =? 200)%Z
           then lift (j <- json rs ;;
                      res <- subscript j "result" ;;
                      summary <- subscript0 res ;;
                      iv <- dict_get summary "mark_iv" ;;
                      bid <- dict_get summary "bid_price" ;;
                      ask <- dict_get summary "ask_price" ;;
                      Ok (set_Ask i ask (set_Bid i bid (set_IV i iv df))))%result
           else io_ret df) (S m) with
    | Ok (a, n') => k a n'
    | Raise e => Raise e
    end =
    match (if (status_code rs =? 200)%Z
           then bind (summary_cells rs) (fun c => Ok (update_at i (with_quote c) df))
           else Ok df) with
    | Raise e => Raise e
    | Ok df1 => k df1 (S m)
    end).
  { intros k. destruct (status_code rs =? 200)%Z; [|reflexivity].
    unfold lift, summary_cells.
    destruct (json rs) as [j|]; [|reflexivity]. simpl.
    destruct (subscript j "result") as [res|]; [|reflexivity]. simpl.
    destruct (subscript0 res) as [sm|]; [|reflexivity]. simpl.
    destruct (dict_get sm "mark_iv") as [iv|]; [|reflexivity]. simpl.
    destruct (dict_get sm "bid_price") as [bid|]; [|reflexivity]. simpl.
    destruct (dict_get sm "ask_price") as [ask|]; [|reflexivity]. simpl.
    rewrite set_quote. reflexivity. }
  rewrite E1. clear E1.
  match goal with
  | |- match ?x with Ok _ => _ | Raise _ => _ end = _ =>
      destruct x as [df1|]; [|reflexivity]
  end.
  destruct (net (S m) _) as [|rg]; [reflexivity|].
  destruct (status_code rg =? 200)%Z; [|reflexivity].
  unfold lift, greeks_cell.
  destruct (json rg) as [j|]; [|reflexivity]. simpl.
  destruct (subscript j "result") as [g|]; [|reflexivity]. simpl.
  destruct (dict_get g "delta") as [d1|]; [|reflexivity]. simpl.
  destruct (dict_get g "gamma") as [d2|]; [|reflexivity]. simpl.
  destruct (dict_get g "vega") as [d3|]; [|reflexivity]. simpl.
  destruct (dict_get g "theta") as [d4|]; [|reflexivity]. simpl.
  destruct (dict_get g "rho") as [d5|]; [|reflexivity]. simpl.
  reflexivity.
Qed.

Lemma enriched_row_static (net : nat -> url -> outcome) (m : nat) (row : Row) :
  idx (enriched_row net m row) = idx row /\
  Instrument (enriched_row net m row) = Instrument row /\
  Expiry (enriched_row net m row) = Expiry row /\
  Strike (enriched_row net m row) = Strike row /\
  Type' (enriched_row net m row) = Type' row.
Proof.
  unfold enriched_row.
  destruct (net m _) as [|rs]; destruct (net (S m) _) as [|rg];
    try destruct (status_code rs =? 200)%Z;
    try destruct (status_code rg =? 200)%Z;
    try destruct (summary_cells rs) as [[[iv bid] ask]|];
    try destruct (greeks_cell rg) as [g|];
    simpl; repeat split; reflexivity.
Qed.

(** One turn of the loop, when its two requests do not raise and the label
    of the row is its own. *)
Lemma enrich_row_quiet (net : nat -> url -> outcome) (m : nat) (row : Row)
    (done rest : list Row) :
  answered (net m (get_book_summary_by_instrument (Instrument row))) summary_cells ->
  answered (net (S m) (get_greeks (Instrument row))) greeks_cell ->
  ~ In (idx row) (map idx done) -> ~ In (idx row) (map idx rest) ->
  enrich_row net (idx row) (Instrument row) (done ++ row :: rest) m
  = Ok (done ++ enriched_row net m row :: rest, S (S m)).
Proof.
  intros (rs & Es & Hs) (rg & Eg & Hg) Hd Hr.
  rewrite enrich_row_eq. unfold enriched_row. rewrite Es, Eg.
  assert (U : forall f row',
            idx row' = idx row ->
            update_at (idx row) f (done ++ row' :: rest) = done ++ f row' :: rest).
  { intros f row' E. apply update_at_unique; assumption. }
  destruct (Z.eqb_spec (status_code rs) 200) as [E1 | E1];
    destruct (Z.eqb_spec (status_code rg) 200) as [E2 | E2].
  - destruct (Hs E1) as [c ->]. destruct (Hg E2) as [g ->]. simpl.
    rewrite U by reflexivity.
    rewrite U by (destruct c as [[? ?] ?]; reflexivity). reflexivity.
  - destruct (Hs E1) as [c ->]. simpl. rewrite U by reflexivity. reflexivity.
  - destruct (Hg E2) as [g ->]. simpl. rewrite U by reflexivity. reflexivity.
  - reflexivity.
Qed.

Lemma quiet_cons (net : nat -> url -> outcome) (m : nat) (row : Row)
    (rest : list Row) :
  quiet net m (row :: rest) ->
  answered (net m (get_book_summary_by_instrument (Instrument row))) summary_cells /\
  answered (net (S m) (get_greeks (Instrument row))) greeks_cell /\
  quiet net (S (S m)) rest.
Proof.
  intros H. split; [|split].
  - destruct (H 0%nat row eq_refl) as [A _].
    replace (m + 2 * 0)%nat with m in A by lia. exact A.
  - destruct (H 0%nat row eq_refl) as [_ A].
    replace (m + 2 * 0 + 1)%nat with (S m) in A by lia. exact A.
  - intros k r Hk. specialize (H (S k) r Hk).
    replace (m + 2 * S k)%nat with (S (S m) + 2 * k)%nat in H by lia. exact H.
Qed.

(** The loop over the rows still to do, [done] being the rows already
    enriched. *)
Lemma enrich_loop_quiet (net : nat -> url -> outcome) (rows : list Row) :
  forall (done : list Row) (m : nat),
    NoDup (map idx (done ++ rows)) ->
    quiet net m rows ->
    enrich_loop net rows (done ++ rows) m
    = Ok (done ++ enriched_rows net m rows, (m + 2 * List.length rows)%nat).
Proof.
  induction rows as [|row rest IH]; intros done m Hnd Hq.
  - simpl. unfold io_ret. f_equal. f_equal. lia.
  - apply quiet_cons in Hq. destruct Hq as (Hs & Hg & Hq).
    assert (Hnd' := Hnd). rewrite map_app in Hnd'. simpl in Hnd'.
    apply NoDup_remove_2 in Hnd'.
    assert (Hd : ~ In (idx row) (map idx done)).
    { intros K. apply Hnd'. apply in_or_app. left. exact K. }
    assert (Hr : ~ In (idx row) (map idx rest)).
    { intros K. apply Hnd'. apply in_or_app. right. exact K. }
    simpl. unfold io_bind.
    rewrite (enrich_row_quiet net m row done rest Hs Hg Hd Hr).
    specialize (IH (done ++ [enriched_row net m row]) (S (S m))).
    rewrite <- !app_assoc in IH. simpl in IH.
    rewrite IH.
    + f_equal. f_equal. lia.
    + rewrite map_app. simpl.
      destruct (enriched_row_static net m row) as [-> _].
      rewrite map_app in Hnd. exact Hnd.
    + exact Hq.
Qed.

Lemma enriched_rows_nth (net : nat -> url -> outcome) (rows : list Row) :
  forall (m k : nat),
    nth_error (enriched_rows net m rows) k
    = option_map (enriched_row net (m + 2 * k)) (nth_error rows k).
Proof.
  induction rows as [|row rest IH]; intros m k.
  - destruct k; reflexivity.
  - destruct k as [|k]; simpl.
    + replace (m + 0)%nat with m by lia. reflexivity.
    + rewrite IH. replace (S (S m) + 2 * k)%nat with (m + S (k + S (k + 0)))%nat by lia.
      reflexivity.
Qed.

Lemma enriched_rows_length (net : nat -> url -> outcome) (rows : list Row) :
  forall m, List.length (enriched_rows net m rows) = List.length rows.
Proof.
  induction rows as [|row rest IH]; intros m; simpl; [reflexivity|].
  rewrite IH. reflexivity.
Qed.

(** Without exceptions the enrichment is the row-by-row map [enriched_rows]. *)
Lemma enrich_chain_quiet (net : nat -> url -> outcome) (df : DataFrame)
    (asset : string) (n : nat) :
  NoDup (map idx df) -> quiet net n df ->
  enrich_chain_with_data net df asset n
  = Ok (enriched_rows net n df, (n + 2 * List.length df)%nat).
Proof.
  intros Hnd Hq. unfold enrich_chain_with_data.
  exact (enrich_loop_quiet net df [] n Hnd Hq).
Qed.

(** The labels of a fetched chain are [0, 1, ...], so they are distinct, and
    they stay distinct under the filters that run before the enrichment. *)
Lemma build_chain_labels (strftime_dby : Q -> result string)
    (instruments : list pyval) :
  forall i df, build_chain strftime_dby i instruments = Ok df ->
               map idx df = seq i (List.length instruments).
Proof.
  induction instruments as [|inst rest IH]; intros i df H.
  - injection H as <-. reflexivity.
  - simpl in H.
    destruct (chain_entry strftime_dby i inst) as [row|] eqn:E; [|discriminate].
    simpl in H.
    destruct (build_chain strftime_dby (S i) rest) as [chain|] eqn:B;
      [|discriminate].
    simpl in H. injection H as <-. simpl. rewrite (IH _ _ B). f_equal.
    unfold chain_entry in E.
    repeat match type of E with
           | bind ?m _ = Ok _ => destruct m; [simpl in E|discriminate E]
           end.
    injection E as <-. reflexivity.
Qed.

Lemma chain_labels_distinct (net : nat -> url -> outcome)
    (strftime_dby : Q -> result string) (asset : string) (n n' : nat)
    (df : DataFrame) :
  get_options_chain net strftime_dby asset n = Ok (df, n') -> NoDup (map idx df).
Proof.
  unfold get_options_chain, io_bind, requests_get, lift, io_ret. intros H.
  destruct (net n _) as [|r]; [discriminate|].
  destruct (status_code r =? 200)%Z.
  - destruct (json r) as [j|]; [|discriminate]. simpl in H.
    destruct (subscript j "result") as [res|]; [|discriminate]. simpl in H.
    destruct (py_iter res) as [instruments|]; [|discriminate]. simpl in H.
    destruct (build_chain strftime_dby 0 instruments) as [chain|] eqn:B;
      [|discriminate].
    injection H as <- _. rewrite (build_chain_labels _ _ _ _ B). apply seq_NoDup.
  - injection H as <- _. constructor.
Qed.

Lemma filter_labels_distinct (f : Row -> bool) (df : DataFrame) :
  NoDup (map idx df) -> NoDup (map idx (filter f df)).
Proof.
  induction df as [|r df IH]; intros H; [constructor|].
  simpl in H. inversion H as [|? ? Hn Hd]; subst. simpl.
  destruct (f r); [|apply IH; exact Hd].
  simpl. constructor; [|apply IH; exact Hd].
  intros K. apply Hn. apply in_map_iff in K. destruct K as (x & Ex & Ix).
  apply in_map_iff. exists x. split; [exact Ex|].
  apply filter_In in Ix. tauto.
Qed.

Lemma prefilter_labels_distinct (inp : Sidebar) (chain_df pre : DataFrame) :
  prefilter inp chain_df = Ok pre -> NoDup (map idx chain_df) ->
  NoDup (map idx pre).
Proof.
  unfold prefilter, filter_type, filter_expiry. intros H Hnd.
  destruct (negb (String.eqb (expiry_filter inp) "")).
  - destruct (re_compile (upper (expiry_filter inp))) as [ts|]; [|discriminate].
    simpl in H. injection H as <-.
    apply filter_labels_distinct, filter_labels_distinct. exact Hnd.
  - simpl in H. injection H as <-. apply filter_labels_distinct. exact Hnd.
Qed.

(** C5, as amended: when no request of the enrichment raises (each is
    answered, and each 200 answer is well formed) the enrichment returns
    every row, in place and with its instrument data unchanged; a row's
    quote cells come from its own quote-summary answer and are left as they
    were when that answer's status is not 200, and likewise its Greeks
    cell and its Greeks answer, whatever the other rows' answers are. *)
Theorem enrich_best_effort (net : nat -> url -> outcome) (df : DataFrame)
    (asset : string) (n : nat) :
  NoDup (map idx df) -> quiet net n df ->
  exists df',
    enrich_chain_with_data net df asset n = Ok (df', (n + 2 * List.length df)%nat) /\
    List.length df' = List.length df /\
    forall k row, nth_error df k = Some row ->
      exists row',
        nth_error df' k = Some row' /\
        idx row' = idx row /\ Instrument row' = Instrument row /\
        Expiry row' = Expiry row /\ Strike row' = Strike row /\
        Type' row' = Type' row /\
        (forall rs,
           net (n + 2 * k)%nat (get_book_summary_by_instrument (Instrument row))
           = Responded rs ->
           if (status_code rs =? 200)%Z
           then summary_cells rs = Ok (IV row', Bid row', Ask row')
           else IV row' = IV row /\ Bid row' = Bid row /\ Ask row' = Ask row) /\
        (forall rg,
           net (n + 2 * k + 1)%nat (get_greeks (Instrument row)) = Responded rg ->
           if (status_code rg =? 200)%Z
           then greeks_cell rg = Ok (Greeks row')
           else Greeks row' = Greeks row).
Proof.
  intros Hnd Hq. exists (enriched_rows net n df).
  split; [apply enrich_chain_quiet; assumption|].
  split; [apply enriched_rows_length|].
  intros k row Hk. exists (enriched_row net (n + 2 * k) row).
  split; [rewrite enriched_rows_nth, Hk; reflexivity|].
  destruct (enriched_row_static net (n + 2 * k) row) as (H1 & H2 & H3 & H4 & H5).
  do 5 (split; [assumption|]).
  destruct (Hq k row Hk) as [(rs & Es & Hs) (rg & Eg & Hg)].
  replace (n + 2 * k + 1)%nat with (S (n + 2 * k)) in * by lia.
  unfold enriched_row. rewrite Es, Eg. split.
  - intros rs' [= <-].
    destruct (Z.eqb_spec (status_code rs) 200) as [E1 | E1];
      destruct (Z.eqb_spec (status_code rg) 200) as [E2 | E2];
      try (destruct (Hs E1) as [[[iv bid] ask] ->]);
      try (destruct (Hg E2) as [g ->]); simpl; auto.
  - intros rg' [= <-].
    destruct (Z.eqb_spec (status_code rs) 200) as [E1 | E1];
      destruct (Z.eqb_spec (status_code rg) 200) as [E2 | E2];
      try (destruct (Hs E1) as [[[iv bid] ask] ->]);
      try (destruct (Hg E2) as [g ->]); simpl; auto.
Qed.

Lemma enrich_best_effort_witness :
  exists df',
    enrich_chain_with_data net_one_refused two_calls "BTC" 0%nat = Ok (df', 4%nat) /\
    List.length df' = 2%nat.
Proof.
  assert (Hnd : NoDup (map idx two_calls)).
  { simpl. repeat constructor; simpl; intuition discriminate. }
  assert (Hq : quiet net_one_refused 0 two_calls).
  { intros k row Hk. destruct k as [|[|k]]; simpl in Hk.
    - injection Hk as <-. split; eexists; (split; [reflexivity|]).
      + intros H. discriminate H.
      + intros _. eexists. reflexivity.
    - injection Hk as <-. split; eexists; (split; [reflexivity|]).
      + intros _. eexists. reflexivity.
      + intros _. eexists. reflexivity.
    - destruct k; discriminate Hk. }
  destruct (enrich_best_effort net_one_refused two_calls "BTC" 0 Hnd Hq)
    as (df' & E & L & _).
  exists df'. split; [exact E|exact L].
Defined.

(** C5 as stated fails: a quote-summary answer with an empty result list
    for the first row, or a connection that drops at the second row, makes
    the whole enrichment raise, and no row is returned. *)
Lemma enrich_aborts_counterexample :
  enrich_chain_with_data net_one_empty two_calls "BTC" 0%nat = Raise IndexError /\
  enrich_chain_with_data net_drops_at_third two_calls "BTC" 0%nat
  = Raise ConnectionError.
Proof. split; reflexivity. Qed.

(** ** Filtering *)

Lemma re_compile_literal (pat : string) :
  literal pat = true ->
  re_compile pat = Ok (map Lit (list_ascii_of_string pat)).
Proof.
  unfold literal. induction pat as [|c pat IH]; intros H; [reflexivity|].
  simpl in H. apply andb_prop in H. destruct H as [Hc H].
  apply andb_prop in Hc. destruct Hc as [H1 H2].
  apply negb_true_iff in H1, H2. simpl. rewrite H1, (IH H). simpl.
  rewrite H2. reflexivity.
Qed.

Lemma re_match_literal (pat : string) :
  forall s, re_match (map Lit (list_ascii_of_string pat)) s = starts_with pat s.
Proof.
  induction pat as [|c pat IH]; intros s; [reflexivity|].
  simpl. destruct s as [|d s]; [reflexivity|]. rewrite IH. reflexivity.
Qed.

Lemma re_search_literal (pat s : string) :
  re_search (map Lit (list_ascii_of_string pat)) s = is_substring pat s.
Proof.
  induction s as [|d s IH]; simpl; rewrite re_match_literal; [reflexivity|].
  rewrite IH. reflexivity.
Qed.

(** For a literal pattern the expiry filter is the substring test. *)
Lemma filter_expiry_literal (pat : string) (df : DataFrame) :
  literal pat = true ->
  filter_expiry pat df = Ok (filter (fun r => is_substring pat (Expiry r)) df).
Proof.
  intros H. unfold filter_expiry. rewrite (re_compile_literal pat H). simpl.
  f_equal. apply filter_ext. intros r. apply re_search_literal.
Qed.

Lemma filter_iv_In (min_iv : Z) (df : DataFrame) :
  forall kept, filter_iv min_iv df = Ok kept ->
  forall r, In r kept <-> In r df /\ iv_ge (IV r) min_iv = Ok true.
Proof.
  induction df as [|x df IH]; intros kept H r.
  - injection H as <-. simpl. tauto.
  - simpl in H. destruct (iv_ge (IV x) min_iv) as [b|] eqn:E; [|discriminate].
    simpl in H. destruct (filter_iv min_iv df) as [rest|]; [|discriminate].
    simpl in H. injection H as <-. specialize (IH rest eq_refl r).
    destruct b; simpl; rewrite IH; split.
    + intros [-> | [H1 H2]]; auto.
    + intros [[-> | H1] H2]; auto.
    + intros [H1 H2]; auto.
    + intros [[-> | H1] H2]; [congruence|auto].
Qed.

(** A cell passes the threshold exactly when it holds a number that is at
    least the threshold. *)
Lemma iv_ge_true (v : pyval) (min_iv : Z) :
  iv_ge v min_iv = Ok true <->
  exists q, as_num v = Some q /\ v <> PNone /\ inject_Z min_iv <= q.
Proof.
  unfold iv_ge. split.
  - destruct v as [|b|q|s|l|d]; simpl; try discriminate.
    + destruct b; intros [= H]; apply Qle_bool_iff in H; eexists;
        (split; [reflexivity|split; [discriminate|exact H]]).
    + intros [= H]. apply Qle_bool_iff in H. exists q.
      split; [reflexivity|split; [discriminate|exact H]].
  - intros (q & E & N & L). destruct v as [|b|q'|s|l|d]; simpl in *;
      try discriminate; try congruence.
    + destruct b; injection E as <-; apply Qle_bool_iff in L; rewrite L;
        reflexivity.
    + injection E as <-. apply Qle_bool_iff in L. rewrite L. reflexivity.
Qed.

(** With a literal pattern the filters of lines 100-102 keep the rows of
    the requested type whose expiry label contains the pattern. *)
Lemma prefilter_literal (inp : Sidebar) (chain_df : DataFrame) :
  literal (upper (expiry_filter inp)) = true ->
  prefilter inp chain_df
  = Ok (filter (fun r => String.eqb (Type' r) (label (option_type inp)))
          (filter (fun r => String.eqb (expiry_filter inp) "" ||
                            is_substring (upper (expiry_filter inp)) (Expiry r))
                  chain_df)).
Proof.
  intros H. unfold prefilter, filter_type.
  destruct (String.eqb (expiry_filter inp) "") eqn:E; simpl.
  - f_equal. f_equal. symmetry. apply forallb_filter_id.
    apply forallb_forall. reflexivity.
  - rewrite (filter_expiry_literal _ chain_df H). reflexivity.
Qed.

Lemma filter_filter {A} (f g : A -> bool) (l : list A) :
  filter f (filter g l) = filter (fun x => f x && g x) l.
Proof.
  induction l as [|x l IH]; [reflexivity|]. simpl.
  destruct (g x); simpl; [destruct (f x)|rewrite andb_false_r]; rewrite IH;
    reflexivity.
Qed.

Lemma update_at_static (i : nat) (f : Row -> Row) (df : DataFrame) :
  (forall r, static (f r) = static r) ->
  map static (update_at i f df) = map static df.
Proof.
  intros H. unfold update_at. rewrite map_map. apply map_ext.
  intros r. destruct (Nat.eqb (idx r) i); [apply H|reflexivity].
Qed.

Lemma enrich_row_static_cols (net : nat -> url -> outcome) (i : nat)
    (name : string) (df df' : DataFrame) (m m' : nat) :
  enrich_row net i name df m = Ok (df', m') -> map static df' = map static df.
Proof.
  rewrite enrich_row_eq. intros H.
  destruct (net m _) as [|rs]; [discriminate|].
  assert (E1 : forall df1,
            (if (status_code rs =? 200)%Z
             then bind (summary_cells rs)
                       (fun c => Ok (update_at i (with_quote c) df))
             else Ok df) = Ok df1 -> map static df1 = map static df).
  { intros df1 K. destruct (status_code rs =? 200)%Z.
    - destruct (summary_cells rs) as [[[iv bid] ask]|]; [|discriminate].
      simpl in K. injection K as <-. apply update_at_static. reflexivity.
    - injection K as <-. reflexivity. }
  destruct (if (status_code rs =? 200)%Z then _ else _) as [df1|];
    [|discriminate].
  specialize (E1 df1 eq_refl).
  destruct (net (S m) _) as [|rg]; [discriminate|].
  destruct (status_code rg =? 200)%Z.
  - destruct (greeks_cell rg) as [g|]; [|discriminate].
    simpl in H. injection H as <- _. rewrite update_at_static; [exact E1|].
    reflexivity.
  - injection H as <- _. exact E1.
Qed.

(** Enrichment, when it returns, returns the rows it was given, in place,
    with the columns it does not write unchanged. *)
Lemma enrich_loop_static (net : nat -> url -> outcome) (rows : list Row) :
  forall df df' m m',
    enrich_loop net rows df m = Ok (df', m') -> map static df' = map static df.
Proof.
  induction rows as [|row rest IH]; intros df df' m m' H.
  - injection H as <- _. reflexivity.
  - simpl in H. unfold io_bind in H.
    destruct (enrich_row net (idx row) (Instrument row) df m) as [[df1 m1]|] eqn:E;
      [|discriminate].
    rewrite (IH _ _ _ _ H). exact (enrich_row_static_cols _ _ _ _ _ _ _ E).
Qed.

(** ** Sorting *)

Section InsertionSorts.

Variable skip : Q -> Q -> bool.
Hypothesis skip_true : forall x y, skip x y = true -> y <= x.
Hypothesis skip_false : forall x y, skip x y = false -> x <= y.

Lemma insert_by_perm (r : Row) (l : list Row) :
  Permutation (r :: l) (insert_by skip r l).
Proof.
  induction l as [|y l IH]; simpl; [apply Permutation_refl|].
  destruct (skip (Strike r) (Strike y)).
  - apply perm_trans with (y :: r :: l); [apply perm_swap|].
    apply perm_skip. exact IH.
  - apply Permutation_refl.
Qed.

Lemma insert_by_sorted (r : Row) (l : list Row) :
  StronglySorted strike_le l -> StronglySorted strike_le (insert_by skip r l).
Proof.
  induction l as [|y l IH]; intros H; simpl.
  - constructor; constructor.
  - inversion H as [|? ? Hl Hy]; subst.
    destruct (skip (Strike r) (Strike y)) eqn:E.
    + constructor; [apply IH; exact Hl|].
      apply (Permutation_Forall (insert_by_perm r l)).
      constructor; [apply skip_true; exact E|exact Hy].
    + constructor; [exact H|].
      apply skip_false in E. constructor; [exact E|].
      eapply Forall_impl; [|exact Hy].
      intros a Ha. unfold strike_le in *. eapply Qle_trans; eassumption.
Qed.

Lemma sort_by_contract : sort_contract (sort_by skip).
Proof.
  intros df. unfold sort_by. induction df as [|r df [IHp IHs]]; simpl.
  - split; constructor.
  - split.
    + apply perm_trans with (r :: fold_right (insert_by skip) [] df).
      * apply perm_skip. exact IHp.
      * apply insert_by_perm.
    + apply insert_by_sorted. exact IHs.
Qed.

End InsertionSorts.

Lemma sort_stable_contract : sort_contract sort_stable.
Proof.
  apply sort_by_contract; intros x y H.
  - apply negb_true_iff in H. destruct (Qlt_le_dec y x) as [L | L].
    + apply Qlt_le_weak. exact L.
    + apply Qle_bool_iff in L. congruence.
  - apply negb_false_iff in H. apply Qle_bool_iff. exact H.
Qed.

Lemma sort_ties_reversed_contract : sort_contract sort_ties_reversed.
Proof.
  apply sort_by_contract; intros x y H.
  - apply Qle_bool_iff. exact H.
  - destruct (Qlt_le_dec x y) as [L | L].
    + apply Qlt_le_weak. exact L.
    + apply Qle_bool_iff in L. congruence.
Qed.

(** ** The filters of the chain *)

Lemma iv_passes_iff (v : pyval) (min_iv : Z) :
  iv_passes v min_iv = true <-> iv_present_ge v min_iv.
Proof.
  unfold iv_passes, iv_present_ge. split.
  - destruct v as [|b|q|s|l|d]; simpl; try discriminate.
    + destruct b; intros H; apply Qle_bool_iff in H; eexists;
        (split; [reflexivity|split; [discriminate|exact H]]).
    + intros H. apply Qle_bool_iff in H. exists q.
      split; [reflexivity|split; [discriminate|exact H]].
  - intros (q & E & N & L). destruct v as [|b|q'|s|l|d]; simpl in *;
      try discriminate; try congruence.
    + destruct b; injection E as <-; apply Qle_bool_iff; exact L.
    + injection E as <-. apply Qle_bool_iff. exact L.
Qed.

(** On cells that are [None] or numbers the filter on IV returns, and it
    keeps the rows that pass the test. *)
Lemma filter_iv_filter (min_iv : Z) (df : DataFrame) :
  Forall (fun r => IV r = PNone \/ as_num (IV r) <> None) df ->
  filter_iv min_iv df = Ok (filter (fun r => iv_passes (IV r) min_iv) df).
Proof.
  induction 1 as [|r df Hr _ IH]; [reflexivity|].
  simpl. rewrite IH.
  assert (E : iv_ge (IV r) min_iv = Ok (iv_passes (IV r) min_iv)).
  { unfold iv_ge, iv_passes. destruct Hr as [-> | Hr]; [reflexivity|].
    destruct (IV r); try reflexivity;
      destruct (as_num _); try reflexivity; contradiction. }
  rewrite E. reflexivity.
Qed.

(** C6, as amended: when the upper-cased expiry filter has no character
    that is special in a regular expression, the rows sent to the
    enrichment are exactly the fetched rows of the requested type whose
    expiry label contains the upper-cased filter (all rows of that type
    when the filter is empty); the enrichment returns them with those
    columns unchanged; and, the IV cells being numbers or [None], the
    filtering returns, and the chain it returns consists of exactly the
    enriched rows whose IV is a number at least [min_iv], each as many
    times as it occurs. *)
Theorem chain_filter_spec (sort_values : DataFrame -> DataFrame)
    (net : nat -> url -> outcome) (inp : Sidebar) (chain_df enriched : DataFrame)
    (n n' : nat) :
  sort_contract sort_values ->
  literal (upper (expiry_filter inp)) = true ->
  enrich_chain_with_data net (filter (type_and_expiry inp) chain_df) (asset inp) n
  = Ok (enriched, n') ->
  Forall (fun r => IV r = PNone \/ as_num (IV r) <> None) enriched ->
  exists df',
    filtered_chain net sort_values inp chain_df n = Ok (df', n') /\
    Permutation (filter (fun r => iv_passes (IV r) (min_iv inp)) enriched) df' /\
    (forall r, In r df' <-> In r enriched /\ iv_present_ge (IV r) (min_iv inp)) /\
    map static enriched = map static (filter (type_and_expiry inp) chain_df).
Proof.
  intros Hc Hl E F. unfold filtered_chain, io_bind, lift, io_ret.
  rewrite (prefilter_literal inp chain_df Hl), filter_filter.
  fold (type_and_expiry inp). rewrite E, (filter_iv_filter _ _ F).
  destruct (Hc (filter (fun r => iv_passes (IV r) (min_iv inp)) enriched))
    as [P _].
  eexists. split; [reflexivity|]. split; [exact P|]. split.
  - intros r. rewrite <- iv_passes_iff. split.
    + intros I. apply (Permutation_in _ (Permutation_sym P)) in I.
      apply filter_In in I. exact I.
    + intros I. apply (Permutation_in _ P). apply filter_In. exact I.
  - exact (enrich_loop_static _ _ _ _ _ _ E).
Qed.

Lemma chain_filter_spec_witness :
  exists df',
    filtered_chain net_one_refused sort_stable (sample_sidebar "27sep" 50)
                   two_calls 0%nat = Ok (df', 4%nat) /\
    map Instrument df' = ["BTC-27SEP24-65000-C"]%string.
Proof.
  destruct (chain_filter_spec sort_stable net_one_refused
              (sample_sidebar "27sep" 50) two_calls
              (enriched_rows net_one_refused 0 two_calls) 0%nat 4%nat
              sort_stable_contract eq_refl)
    as (df' & E & _).
  - vm_compute. reflexivity.
  - vm_compute.
    repeat (apply Forall_cons; [(left; reflexivity) || (right; discriminate)|]).
    apply Forall_nil.
  - exists df'. split; [exact E|].
    vm_compute in E. injection E as <-. reflexivity.
Defined.

(** C6 as stated fails at the filter ".": it is searched as a regular
    expression, so both rows are kept although neither expiry label
    contains a full stop. *)
Lemma expiry_filter_regex_counterexample :
  prefilter (sample_sidebar "." 50) two_calls = Ok two_calls /\
  existsb (fun r => is_substring "." (Expiry r)) two_calls = false /\
  exists df',
    filtered_chain (net_quoted (PNum 55)) sort_stable (sample_sidebar "." 50)
                   two_calls 0%nat = Ok (df', 4%nat) /\
    map Instrument df' = map Instrument two_calls.
Proof.
  split; [reflexivity|]. split; [reflexivity|].
  eexists. split; vm_compute; reflexivity.
Qed.

(** ** The empty chain *)






(** ** Instances *)

Lemma premium_midpoint_witness :
  premium_of (quoted_row (PNum 400) (PNum 600)) = Ok ((400 + 600) / 2) /\
  premium_of (quoted_row PNone (PNum 600)) = Ok 0.
Proof.
  split.
  - apply (proj1 (premium_midpoint (quoted_row (PNum 400) (PNum 600))));
      [reflexivity|reflexivity|discriminate|discriminate].
  - apply (proj2 (premium_midpoint (quoted_row PNone (PNum 600)))).
    left. reflexivity.
Defined.

(** C1 as stated fails: a bid of 0 and an ask of 10 are both present, and
    the premium is 0, not 5. *)
Lemma premium_zero_bid_counterexample :
  ~ (forall row b a, Bid row = PNum b -> Ask row = PNum a ->
       exists p, premium_of row = Ok p /\ p == (b + a) / 2).
Proof.
  intros H.
  destruct (H (quoted_row (PNum 0) (PNum 10)) 0 10 eq_refl eq_refl) as (p & E & K).
  vm_compute in E. injection E as <-. vm_compute in K. discriminate K.
Qed.

Lemma premium_zero_quote_witness :
  premium_of (quoted_row (PNum 0) (PNum 10)) = Ok 0.
Proof.
  apply (premium_zero_quote (quoted_row (PNum 0) (PNum 10)) 0 10);
    [reflexivity|reflexivity|left; reflexivity].
Defined.

Lemma short_option_payoff_witness :
  exists y, nth_error (payoff_curve Put 3000 80 2 [2900%Z]) 0 = Some y /\
            y == (80 - Qmax (3000 - inject_Z 2900) 0) * 2.
Proof.
  apply (proj1 short_option_payoff 3000 80 2 [2900%Z] 0%nat 2900%Z).
  reflexivity.
Defined.

Lemma risk_summary_witness :
  exists pf,
    payoff_block (put_3000 (PNum 70) (PNum 90)) Put 2 (PNum 3000) = Ok pf /\
    max_profit pf == 160 /\
    breakeven pf == 2920 /\
    max_loss_is (max_loss pf) (Loss 6000).
Proof.
  eapply (proj2 risk_summary (put_3000 (PNum 70) (PNum 90)) (PNum 3000)).
  - reflexivity.
  - reflexivity.
  - reflexivity.
  - vm_compute. reflexivity.
Defined.

Lemma price_grid_spec_witness :
  exists n,
    price_grid (PNum 60000)
    = Ok (map (fun k => (30000 + Z.of_nat k * 600)%Z) (seq 0 n)) /\
    (100 <= n)%nat.
Proof.
  destruct (proj1 (price_grid_spec 60000)) as (n & E & _ & L & _).
  - unfold Qle. simpl. lia.
  - vm_compute. reflexivity.
  - exists n. split; [exact E|exact L].
Defined.

(** C8 as stated fails: for a spot of 50, and for a spot of 0, the step of
    the range is 0 and the payoff block raises [ValueError]. *)
Lemma price_grid_small_spot_counterexample :
  price_grid (PNum 50) = Raise ValueError /\
  price_grid (PNum 0) = Raise ValueError /\
  payoff_block (quoted_row (PNum 400) (PNum 600)) Call 1 (PNum 50)
  = Raise ValueError.
Proof. split; [|split]; vm_compute; reflexivity. Qed.

(** * Further properties of the script *)

(** ** [get_spot_price] and [get_options_chain] *)

(** The body of [get_spot_price] returns exactly in two cases. *)
Lemma get_spot_price_Ok (net : nat -> url -> outcome) (asset : string)
    (n n' : nat) (v : pyval) :
  get_spot_price net asset n = Ok (v, n') <->
  n' = S n /\
  exists r, net n (ticker asset) = Responded r /\
    ((status_code r <> 200%Z /\ v = PNone) \/
     (status_code r = 200%Z /\
      exists d data, body r = Some (PDict d) /\
                     dict_lookup "result" d = Some (PDict data) /\
                     dict_lookup "last_price" data = Some v)).
Proof.
  unfold get_spot_price, io_bind, requests_get, lift, io_ret, json. split.
  - intros H. destruct (net n (ticker asset)) as [|r]; [discriminate|].
    destruct (Z.eqb_spec (status_code r) 200) as [E | E].
    + destruct (body r) as [j|] eqn:B; [|discriminate]. simpl in H.
      destruct j as [| | | | |d]; simpl in H; try discriminate.
      destruct (dict_lookup "result" d) as [res|] eqn:R; [|discriminate].
      simpl in H. destruct res as [| | | | |data]; simpl in H; try discriminate.
      destruct (dict_lookup "last_price" data) as [x|] eqn:L; [|discriminate].
      injection H as <- <-. split; [reflexivity|]. exists r.
      split; [reflexivity|]. right. split; [exact E|].
      exists d, data. auto.
    + injection H as <- <-. split; [reflexivity|]. exists r.
      split; [reflexivity|]. left. auto.
  - intros [-> (r & -> & [[E ->] | (E & d & data & B & R & L)])].
    + apply Z.eqb_neq in E. rewrite E. reflexivity.
    + rewrite E, B. simpl. rewrite R. simpl. rewrite L. reflexivity.
Qed.

(** A call of the cached [get_spot_price] returns exactly in three cases:
    a fresh entry is returned and no request is sent; or, without one, one
    request is sent and either the answer's status is not 200 and the value
    is [None], or the status is 200, the body is an object whose 'result'
    is an object, and the value is its 'last_price'. *)
Theorem get_spot_price_returns (net : nat -> url -> outcome) (cache : Cache)
    (asset : string) (n n' : nat) (v : pyval) :
  cached_get_spot_price net cache asset n = Ok (v, n') <->
  (cached_spot cache asset = Some v /\ n' = n) \/
  (cached_spot cache asset = None /\ n' = S n /\
   exists r, net n (ticker asset) = Responded r /\
     ((status_code r <> 200%Z /\ v = PNone) \/
      (status_code r = 200%Z /\
       exists d data, body r = Some (PDict d) /\
                      dict_lookup "result" d = Some (PDict data) /\
                      dict_lookup "last_price" data = Some v))).
Proof.
  unfold cached_get_spot_price, cache_data.
  destruct (cached_spot cache asset) as [c|].
  - unfold io_ret. split.
    + intros [= <- <-]. left. auto.
    + intros [[[= <-] ->] | [K _]]; [reflexivity|discriminate K].
  - rewrite get_spot_price_Ok. split.
    + intros [E H]. right. auto.
    + intros [[K _] | (_ & E & H)]; [discriminate K|auto].
Qed.

Lemma upper_ascii_idem (c : ascii) : upper_ascii (upper_ascii c) = upper_ascii c.
Proof. destruct c as [[] [] [] [] [] [] [] []]; reflexivity. Qed.

Lemma lower_ascii_idem (c : ascii) : lower_ascii (lower_ascii c) = lower_ascii c.
Proof. destruct c as [[] [] [] [] [] [] [] []]; reflexivity. Qed.

Lemma upper_idem (s : string) : upper (upper s) = upper s.
Proof.
  induction s as [|c s IH]; [reflexivity|].
  unfold upper in *. simpl. rewrite upper_ascii_idem, IH. reflexivity.
Qed.

Lemma lower_idem (s : string) : lower (lower s) = lower s.
Proof.
  induction s as [|c s IH]; [reflexivity|].
  unfold lower in *. simpl. rewrite lower_ascii_idem, IH. reflexivity.
Qed.

Lemma capitalize_idem (s : string) : capitalize (capitalize s) = capitalize s.
Proof.
  destruct s as [|c s]; [reflexivity|].
  simpl. rewrite upper_ascii_idem, lower_idem. reflexivity.
Qed.

(** What one turn of the loop of [get_options_chain] reads and writes. *)
Lemma chain_entry_Ok (strftime_dby : Q -> result string) (i : nat)
    (inst : pyval) (row : Row) :
  chain_entry strftime_dby i inst = Ok row ->
  idx row = i /\
  subscript inst "instrument_name" = Ok (PStr (Instrument row)) /\
  subscript inst "strike" = Ok (PNum (Strike row)) /\
  (exists s, subscript inst "option_type" = Ok (PStr s) /\
             Type' row = capitalize s) /\
  (exists ts t d, subscript inst "expiration_timestamp" = Ok ts /\
                  as_num ts = Some t /\ strftime_dby (t / 1000) = Ok d /\
                  Expiry row = upper d) /\
  IV row = PNone /\ Bid row = PNone /\ Ask row = PNone /\ Greeks row = PDict [].
Proof.
  unfold chain_entry, num. intros H.
  destruct (subscript inst "expiration_timestamp") as [ts|]; [|discriminate].
  simpl in H. destruct (as_num ts) as [t|] eqn:T; [|discriminate]. simpl in H.
  destruct (strftime_dby (t / 1000)) as [d|] eqn:D; [|discriminate]. simpl in H.
  destruct (subscript inst "instrument_name") as [name|]; [|discriminate].
  simpl in H. destruct name as [| | |name| |]; try discriminate. simpl in H.
  destruct (subscript inst "strike") as [strike|]; [|discriminate].
  simpl in H. destruct strike as [| |strike| | |]; try discriminate. simpl in H.
  destruct (subscript inst "option_type") as [ty|]; [|discriminate].
  simpl in H. destruct ty as [| | |ty| |]; try discriminate. simpl in H.
  injection H as <-. simpl.
  split; [reflexivity|]. split; [reflexivity|]. split; [reflexivity|].
  split; [exists ty; auto|]. split; [exists ts, t, d; auto|]. auto.
Qed.

Lemma build_chain_Forall2 (strftime_dby : Q -> result string)
    (instruments : list pyval) :
  forall i df, build_chain strftime_dby i instruments = Ok df ->
    Forall2 (fun inst row => exists j, chain_entry strftime_dby j inst = Ok row)
            instruments df.
Proof.
  induction instruments as [|inst rest IH]; intros i df H.
  - injection H as <-. constructor.
  - simpl in H.
    destruct (chain_entry strftime_dby i inst) as [row|] eqn:E; [|discriminate].
    simpl in H.
    destruct (build_chain strftime_dby (S i) rest) as [chain|] eqn:B;
      [|discriminate].
    simpl in H. injection H as <-. constructor; [exists i; exact E|].
    exact (IH _ _ B).
Qed.

(** Unfolding of a successful [get_options_chain]. *)
Lemma get_options_chain_Ok (net : nat -> url -> outcome)
    (strftime_dby : Q -> result string) (asset : string) (n n' : nat)
    (df : DataFrame) :
  get_options_chain net strftime_dby asset n = Ok (df, n') ->
  n' = S n /\
  exists r, net n (get_instruments asset) = Responded r /\
    ((status_code r <> 200%Z /\ df = []) \/
     (status_code r = 200%Z /\
      exists j res instruments,
        body r = Some j /\ subscript j "result" = Ok res /\
        py_iter res = Ok instruments /\
        build_chain strftime_dby 0 instruments = Ok df)).
Proof.
  unfold get_options_chain, io_bind, requests_get, lift, io_ret, json. intros H.
  destruct (net n (get_instruments asset)) as [|r]; [discriminate|].
  destruct (Z.eqb_spec (status_code r) 200) as [E | E].
  - destruct (body r) as [j|] eqn:J; [|discriminate]. simpl in H.
    destruct (subscript j "result") as [res|] eqn:R; [|discriminate]. simpl in H.
    destruct (py_iter res) as [instruments|] eqn:I; [|discriminate]. simpl in H.
    destruct (build_chain strftime_dby 0 instruments) as [chain|] eqn:B;
      [|discriminate].
    injection H as <- <-. split; [reflexivity|]. exists r.
    split; [reflexivity|]. right. split; [exact E|].
    exists j, res, instruments. auto.
  - injection H as <- <-. split; [reflexivity|]. exists r.
    split; [reflexivity|]. left. auto.
Qed.

(** A fetched chain is unquoted and normalised: the rows are labelled
    0, 1, ... in order; every IV, bid and ask is [None] and every Greeks
    cell is the empty dict; every expiry label is upper case and every
    option type is capitalised. *)
Theorem fetched_chain_shape (net : nat -> url -> outcome)
    (strftime_dby : Q -> result string) (asset : string) (n n' : nat)
    (df : DataFrame) :
  get_options_chain net strftime_dby asset n = Ok (df, n') ->
  map idx df = seq 0 (List.length df) /\
  Forall (fun r => IV r = PNone /\ Bid r = PNone /\ Ask r = PNone /\
                   Greeks r = PDict [] /\
                   upper (Expiry r) = Expiry r /\
                   capitalize (Type' r) = Type' r) df.
Proof.
  intros H. apply get_options_chain_Ok in H.
  destruct H as (_ & r & _ & [[_ ->] | (_ & j & res & instruments & _ & _ & _ & B)]).
  - split; [reflexivity|constructor].
  - split.
    + rewrite (build_chain_labels _ _ _ _ B).
      apply build_chain_Forall2 in B. apply Forall2_length in B.
      rewrite B. reflexivity.
    + apply build_chain_Forall2 in B.
      induction B as [|inst row insts rows [k E] _ IH]; constructor; [|exact IH].
      apply chain_entry_Ok in E.
      destruct E as (_ & _ & _ & (s & _ & Ty) & (ts & t & d & _ & _ & _ & Ex) & Hiv).
      destruct Hiv as (H1 & H2 & H3 & H4).
      repeat (split; [assumption|]).
      split; [rewrite Ex; apply upper_idem|].
      rewrite Ty. apply capitalize_idem.
Qed.

Lemma fetched_chain_shape_witness :
  exists df,
    get_options_chain (net_sample (PNum 30)) strftime_sample "BTC" 0%nat
    = Ok (df, 1%nat) /\
    map idx df = [0; 1; 2]%nat.
Proof.
  eexists. split; [vm_compute; reflexivity|].
  refine (proj1 (fetched_chain_shape (net_sample (PNum 30)) strftime_sample
                   "BTC" 0%nat 1%nat _ _)).
  vm_compute. reflexivity.
Defined.

(** A chain fetched from a 200 answer has one row per instrument record of
    the answer, in the answer's order, and each record has the four fields
    the row is made of: a single record that lacks one of them (or is not
    an object) leaves no chain at all. *)
Theorem fetched_chain_decodes (net : nat -> url -> outcome)
    (strftime_dby : Q -> result string) (asset : string) (n n' : nat)
    (df : DataFrame) (r : response) :
  get_options_chain net strftime_dby asset n = Ok (df, n') ->
  net n (get_instruments asset) = Responded r ->
  status_code r = 200%Z ->
  exists j res instruments,
    body r = Some j /\ subscript j "result" = Ok res /\
    py_iter res = Ok instruments /\
    Forall2 decodes_to instruments df.
Proof.
  intros H Hr Hs. apply get_options_chain_Ok in H.
  destruct H as (_ & r' & Hr' & [[Hs' _] | (_ & j & res & instruments & B1 & B2 & B3 & B)]);
    rewrite Hr in Hr'; injection Hr' as <-; [contradiction|].
  exists j, res, instruments. repeat (split; [assumption|]).
  apply build_chain_Forall2 in B. clear B3 Hr Hs.
  induction B as [|inst row insts rows [k E] _ IH]; constructor; [|exact IH].
  apply chain_entry_Ok in E.
  destruct E as (_ & E1 & E2 & E3 & (ts & t & d & E4 & E5 & _) & _).
  unfold decodes_to. repeat (split; [assumption|]).
  exists ts. split; [exact E4|congruence].
Qed.

Lemma fetched_chain_decodes_witness :
  exists df instruments,
    get_options_chain (net_sample (PNum 30)) strftime_sample "BTC" 0%nat
    = Ok (df, 1%nat) /\
    List.length instruments = 3%nat /\
    Forall2 decodes_to instruments df.
Proof.
  eexists.
  match goal with
  | |- exists _, ?lhs = Ok (?d, _) /\ _ =>
      assert (E : lhs = Ok (d, 1%nat)) by (vm_compute; reflexivity)
  end.
  destruct (fetched_chain_decodes (net_sample (PNum 30)) strftime_sample "BTC"
              0%nat 1%nat _ _ E eq_refl eq_refl)
    as (j & res & instruments & B1 & B2 & B3 & F).
  exists instruments. split; [exact E|]. split; [|exact F].
  injection B1 as <-. simpl in B2. injection B2 as <-.
  simpl in B3. injection B3 as <-. reflexivity.
Defined.

(** ** The script when the chain cannot be shown *)



(** ** More on the enrichment *)

Lemma update_at_length (i : nat) (f : Row -> Row) (df : DataFrame) :
  List.length (update_at i f df) = List.length df.
Proof. unfold update_at. apply length_map. Qed.

(** A turn of the loop that returns has sent two requests, both answered
    and, where the status is 200, both well formed. *)
Lemma enrich_row_Ok (net : nat -> url -> outcome) (i : nat) (name : string)
    (df df' : DataFrame) (m m' : nat) :
  enrich_row net i name df m = Ok (df', m') ->
  m' = S (S m) /\ List.length df' = List.length df /\
  answered (net m (get_book_summary_by_instrument name)) summary_cells /\
  answered (net (S m) (get_greeks name)) greeks_cell.
Proof.
  rewrite enrich_row_eq. intros H.
  destruct (net m _) as [|rs]; [discriminate|].
  assert (A1 : forall df1,
            (if (status_code rs =? 200)%Z
             then bind (summary_cells rs)
                       (fun c => Ok (update_at i (with_quote c) df))
             else Ok df) = Ok df1 ->
            List.length df1 = List.length df /\
            answered (Responded rs) summary_cells).
  { intros df1 K. destruct (Z.eqb_spec (status_code rs) 200) as [E | E].
    - destruct (summary_cells rs) as [c|] eqn:C; [|discriminate].
      simpl in K. injection K as <-. split; [apply update_at_length|].
      exists rs. split; [reflexivity|]. intros _. exists c. exact C.
    - injection K as <-. split; [reflexivity|].
      exists rs. split; [reflexivity|]. intros K. contradiction. }
  destruct (if (status_code rs =? 200)%Z then _ else _) as [df1|];
    [|discriminate].
  destruct (A1 df1 eq_refl) as [L1 Q1]. clear A1.
  destruct (net (S m) _) as [|rg]; [discriminate|].
  destruct (Z.eqb_spec (status_code rg) 200) as [E | E].
  - destruct (greeks_cell rg) as [g|] eqn:G; [|discriminate].
    simpl in H. injection H as <- <-.
    split; [reflexivity|]. split; [rewrite update_at_length; exact L1|].
    split; [exact Q1|]. exists rg. split; [reflexivity|].
    intros _. exists g. exact G.
  - injection H as <- <-.
    split; [reflexivity|]. split; [exact L1|]. split; [exact Q1|].
    exists rg. split; [reflexivity|]. intros K. contradiction.
Qed.

Lemma enrich_loop_Ok (net : nat -> url -> outcome) (rows : list Row) :
  forall df df' m m',
    enrich_loop net rows df m = Ok (df', m') ->
    m' = (m + 2 * List.length rows)%nat /\
    List.length df' = List.length df /\
    quiet net m rows.
Proof.
  induction rows as [|row rest IH]; intros df df' m m' H.
  - injection H as <- <-. split; [simpl; lia|]. split; [reflexivity|].
    intros k r Hk. destruct k; discriminate Hk.
  - simpl in H. unfold io_bind in H.
    destruct (enrich_row net (idx row) (Instrument row) df m) as [[df1 m1]|] eqn:E;
      [|discriminate].
    apply enrich_row_Ok in E. destruct E as (-> & L1 & A1 & A2).
    apply IH in H. destruct H as (-> & L2 & Hq).
    split; [simpl; lia|]. split; [congruence|].
    intros k r Hk. destruct k as [|k].
    + injection Hk as <-.
      replace (m + 2 * 0)%nat with m by lia.
      replace (m + 1)%nat with (S m) by lia. split; assumption.
    + simpl in Hk. specialize (Hq k r Hk).
      replace (m + 2 * S k)%nat with (S (S m) + 2 * k)%nat by lia. exact Hq.
Qed.

(** An enrichment that returns has sent exactly two requests per row, and
    returns as many rows as it was given, in the same order, with the
    columns 'Instrument', 'Expiry', 'Strike' and 'Type' and the labels
    unchanged. *)
Theorem enrich_request_count (net : nat -> url -> outcome) (df df' : DataFrame)
    (asset : string) (n n' : nat) :
  enrich_chain_with_data net df asset n = Ok (df', n') ->
  n' = (n + 2 * List.length df)%nat /\
  List.length df' = List.length df /\
  map static df' = map static df.
Proof.
  unfold enrich_chain_with_data. intros H.
  destruct (enrich_loop_Ok net df df df' n n' H) as (E & L & _).
  split; [exact E|]. split; [exact L|].
  exact (enrich_loop_static net df df df' n n' H).
Qed.

Lemma enrich_request_count_witness :
  exists df',
    enrich_chain_with_data net_one_refused two_calls "BTC" 0%nat = Ok (df', 4%nat) /\
    map static df' = map static two_calls.
Proof.
  eexists.
  match goal with
  | |- ?lhs = Ok (?d, _) /\ _ =>
      assert (E : lhs = Ok (d, 4%nat)) by (vm_compute; reflexivity)
  end.
  split; [exact E|].
  exact (proj2 (proj2 (enrich_request_count net_one_refused two_calls _ "BTC"
                         0%nat 4%nat E))).
Defined.

(** On a frame with distinct labels the enrichment returns exactly when
    none of its requests raises: every request is answered, and every 200
    answer is well formed. *)
Theorem enrich_returns_iff_quiet (net : nat -> url -> outcome) (df : DataFrame)
    (asset : string) (n : nat) :
  NoDup (map idx df) ->
  (exists df' n', enrich_chain_with_data net df asset n = Ok (df', n')) <->
  quiet net n df.
Proof.
  intros Hnd. split.
  - intros (df' & n' & H). unfold enrich_chain_with_data in H.
    exact (proj2 (proj2 (enrich_loop_Ok net df df df' n n' H))).
  - intros Hq. eexists. eexists. apply enrich_chain_quiet; assumption.
Qed.

Lemma enrich_returns_iff_quiet_witness :
  quiet net_one_refused 0 two_calls /\ ~ quiet net_one_empty 0 two_calls.
Proof.
  assert (Hnd : NoDup (map idx two_calls)).
  { simpl. repeat constructor; simpl; intuition discriminate. }
  split.
  - apply (proj1 (enrich_returns_iff_quiet net_one_refused two_calls "BTC" 0 Hnd)).
    eexists. eexists. vm_compute. reflexivity.
  - intros Hq.
    apply (proj2 (enrich_returns_iff_quiet net_one_empty two_calls "BTC" 0 Hnd))
      in Hq.
    destruct Hq as (df' & n' & H). vm_compute in H. discriminate H.
Defined.

(** ** More on the filters *)

Lemma filter_idem {A} (f : A -> bool) (l : list A) :
  filter f (filter f l) = filter f l.
Proof.
  rewrite filter_filter. apply filter_ext. intros x. apply andb_diag.
Qed.

Lemma filter_swap {A} (f g : A -> bool) (l : list A) :
  filter f (filter g l) = filter g (filter f l).
Proof.
  rewrite !filter_filter. apply filter_ext. intros x. apply andb_comm.
Qed.

Lemma filter_iv_idem (min_iv : Z) (df : DataFrame) :
  forall kept, filter_iv min_iv df = Ok kept -> filter_iv min_iv kept = Ok kept.
Proof.
  induction df as [|r df IH]; intros kept H.
  - injection H as <-. reflexivity.
  - simpl in H. destruct (iv_ge (IV r) min_iv) as [b|] eqn:E; [|discriminate].
    simpl in H. destruct (filter_iv min_iv df) as [rest|]; [|discriminate].
    simpl in H. injection H as <-. specialize (IH rest eq_refl).
    destruct b; [|exact IH]. simpl. rewrite E, IH. reflexivity.
Qed.

(** Filtering is idempotent: the filters on expiry and type, and the
    filter on IV, applied to their own result, return it unchanged. *)
Theorem filters_idempotent (inp : Sidebar) (df : DataFrame) :
  (forall pre, prefilter inp df = Ok pre -> prefilter inp pre = Ok pre) /\
  (forall kept, filter_iv (min_iv inp) df = Ok kept ->
                filter_iv (min_iv inp) kept = Ok kept).
Proof.
  split; [|apply filter_iv_idem].
  unfold prefilter, filter_type, filter_expiry. intros pre H.
  destruct (negb (String.eqb (expiry_filter inp) "")).
  - destruct (re_compile (upper (expiry_filter inp))) as [ts|]; [|discriminate].
    simpl in *. injection H as <-. apply f_equal.
    rewrite (filter_swap (fun r => re_search ts (Expiry r))
                         (fun r => String.eqb (Type' r) (label (option_type inp)))
                         (filter _ df)).
    rewrite !filter_idem. reflexivity.
  - simpl in *. injection H as <-. apply f_equal. apply filter_idem.
Qed.

Lemma filters_idempotent_witness :
  exists pre,
    prefilter (sample_sidebar "27sep" 50) two_calls = Ok pre /\
    prefilter (sample_sidebar "27sep" 50) pre = Ok pre.
Proof.
  eexists.
  match goal with
  | |- ?lhs = Ok ?d /\ _ => assert (E : lhs = Ok d) by (vm_compute; reflexivity)
  end.
  split; [exact E|].
  exact (proj1 (filters_idempotent (sample_sidebar "27sep" 50) two_calls) _ E).
Defined.

Lemma iv_ge_Raise (v : pyval) (min_iv : Z) (e : exn) :
  iv_ge v min_iv = Raise e <-> e = TypeError /\ v <> PNone /\ as_num v = None.
Proof.
  unfold iv_ge. split.
  - destruct v as [|[]|q|s|l|d]; simpl; try discriminate;
      intros [= <-]; repeat split; discriminate.
  - intros (-> & N & A). destruct v as [|[]|q|s|l|d]; simpl in *;
      try discriminate; try reflexivity. contradiction.
Qed.

(** The filter on IV raises exactly when some IV cell holds a value that is
    neither [None] nor a number (a string, a list, an object), and then it
    raises [TypeError]; otherwise it returns. *)
Theorem filter_iv_raises (min_iv : Z) (df : DataFrame) (e : exn) :
  filter_iv min_iv df = Raise e <->
  e = TypeError /\
  Exists (fun r => IV r <> PNone /\ as_num (IV r) = None) df.
Proof.
  revert e. induction df as [|r df IH]; intros e; simpl.
  - split; [discriminate|]. intros [_ H]. inversion H.
  - destruct (iv_ge (IV r) min_iv) as [b|e'] eqn:E; simpl.
    + destruct (filter_iv min_iv df) as [rest|e'] eqn:F; simpl.
      * split; [discriminate|]. intros [-> H].
        inversion H as [? ? [N A]|? ? H']; subst.
        -- assert (K : iv_ge (IV r) min_iv = Raise TypeError)
             by (apply iv_ge_Raise; auto).
           congruence.
        -- assert (K : Ok rest = Raise TypeError) by (apply IH; auto).
           discriminate K.
      * destruct (proj1 (IH e') eq_refl) as [-> X]. split.
        -- intros [= <-]. split; [reflexivity|]. apply Exists_cons_tl. exact X.
        -- intros [-> _]. reflexivity.
    + apply iv_ge_Raise in E. destruct E as (-> & N & A). split.
      * intros [= <-]. split; [reflexivity|]. apply Exists_cons_hd. auto.
      * intros [-> _]. reflexivity.
Qed.

Lemma upper_empty (s : string) : String.eqb (upper s) "" = String.eqb s "".
Proof. destruct s; reflexivity. Qed.

(** The case of the typed expiry filter does not matter: two filters that
    agree once upper-cased select the same rows. *)
Theorem expiry_filter_ignores_case (inp inp' : Sidebar) (df : DataFrame) :
  option_type inp = option_type inp' ->
  upper (expiry_filter inp) = upper (expiry_filter inp') ->
  prefilter inp df = prefilter inp' df.
Proof.
  intros Ht Hu. unfold prefilter.
  rewrite <- (upper_empty (expiry_filter inp)),
          <- (upper_empty (expiry_filter inp')), Hu, Ht.
  reflexivity.
Qed.

Lemma expiry_filter_ignores_case_witness :
  prefilter (sample_sidebar "27sep" 50) two_calls
  = prefilter (sample_sidebar "27SeP" 50) two_calls.
Proof.
  apply expiry_filter_ignores_case; reflexivity.
Defined.

(** ** The chain and the payoff that a run shows *)

Lemma prefilter_type (inp : Sidebar) (df pre : DataFrame) :
  prefilter inp df = Ok pre ->
  Forall (fun r => Type' r = label (option_type inp)) pre.
Proof.
  unfold prefilter, filter_type. intros H.
  destruct (if negb (String.eqb (expiry_filter inp) "") then _ else _) as [d|];
    [|discriminate].
  simpl in H. injection H as <-. apply Forall_forall. intros r I.
  apply filter_In in I. destruct I as [_ I]. apply String.eqb_eq. exact I.
Qed.

Lemma static_type (l l' : list Row) (P : string -> Prop) :
  map static l' = map static l ->
  Forall (fun r => P (Type' r)) l -> Forall (fun r => P (Type' r)) l'.
Proof.
  intros E H. apply (f_equal (map snd)) in E. rewrite !map_map in E.
  simpl in E. revert l' E.
  induction H as [|r l Hr _ IH]; intros l' E; destruct l' as [|r' l'];
    try discriminate E; constructor; injection E as E1 E2.
  - rewrite E1. exact Hr.
  - apply IH. exact E2.
Qed.

(** The steps of the filtering that returns. *)
Lemma filtered_chain_Ok (net : nat -> url -> outcome)
    (sort_values : DataFrame -> DataFrame) (inp : Sidebar)
    (chain_df df' : DataFrame) (n n' : nat) :
  filtered_chain net sort_values inp chain_df n = Ok (df', n') ->
  exists pre enriched kept,
    prefilter inp chain_df = Ok pre /\
    enrich_chain_with_data net pre (asset inp) n = Ok (enriched, n') /\
    filter_iv (min_iv inp) enriched = Ok kept /\
    df' = sort_values kept.
Proof.
  unfold filtered_chain, io_bind, lift, io_ret. intros H.
  destruct (prefilter inp chain_df) as [pre|] eqn:E1; [|discriminate].
  destruct (enrich_chain_with_data net pre (asset inp) n) as [[enriched m]|] eqn:E2;
    [|discriminate].
  destruct (filter_iv (min_iv inp) enriched) as [kept|] eqn:E3; [|discriminate].
  injection H as <- <-. exists pre, enriched, kept. auto.
Qed.

(** The steps of a run that returns. *)
Lemma script_Ok (net : nat -> url -> outcome)
    (strftime_dby : Q -> result string) (sort_values : DataFrame -> DataFrame)
    (cache : Cache) (inp : Sidebar) (choice : nat) (n n' : nat) (page : Page) :
  script net strftime_dby sort_values cache inp choice n = Ok (page, n') ->
  exists spot_price n1 chain_df n2,
    cached_get_spot_price net cache (asset inp) n = Ok (spot_price, n1) /\
    spot_metric spot_price = Ok tt /\
    cached_get_options_chain net strftime_dby cache (asset inp) n1
    = Ok (chain_df, n2) /\
    ((chain_df = [] /\ n' = n2 /\
      page = {| spot := spot_price; chain := None; payoff_view := None |}) \/
     (chain_df <> [] /\
      exists df p,
        filtered_chain net sort_values inp chain_df n2 = Ok (df, n') /\
        iv_smile spot_price df = Ok tt /\
        payoff_section inp spot_price df choice = Ok p /\
        page = {| spot := spot_price; chain := Some df; payoff_view := p |})).
Proof.
  unfold script, io_bind. intros H.
  destruct (cached_get_spot_price net cache (asset inp) n)
    as [[spot_price n1]|] eqn:E0; [|discriminate].
  unfold lift at 1 in H.
  destruct (spot_metric spot_price) as [[]|] eqn:E1; [|discriminate].
  destruct (cached_get_options_chain net strftime_dby cache (asset inp) n1)
    as [[chain_df n2]|] eqn:E2; [|discriminate].
  exists spot_price, n1, chain_df, n2.
  split; [reflexivity|]. split; [exact E1|]. split; [exact E2|]. clear E2.
  destruct chain_df as [|r0 chain_df].
  - left. unfold io_ret in H. injection H as <- <-. auto.
  - right. split; [discriminate|].
    destruct (filtered_chain net sort_values inp (r0 :: chain_df) n2)
      as [[df n3]|] eqn:E3; [|discriminate].
    unfold lift, io_ret in H.
    destruct (iv_smile spot_price df) as [[]|] eqn:E4; [|discriminate].
    destruct (payoff_section inp spot_price df choice) as [p|] eqn:E5;
      [|discriminate].
    injection H as <- <-. exists df, p. auto.
Qed.

(** A run that shows a chain shows it in non-decreasing order of strike;
    every row shown is of the option type chosen in the sidebar and has an
    IV that is a number at least the threshold of the sidebar. *)
Theorem script_chain_rows (net : nat -> url -> outcome)
    (strftime_dby : Q -> result string) (sort_values : DataFrame -> DataFrame)
    (cache : Cache) (inp : Sidebar) (choice : nat) (n n' : nat) (page : Page)
    (df : DataFrame) :
  sort_contract sort_values ->
  script net strftime_dby sort_values cache inp choice n = Ok (page, n') ->
  chain page = Some df ->
  StronglySorted strike_le df /\
  Forall (fun r => Type' r = label (option_type inp) /\
                   iv_present_ge (IV r) (min_iv inp)) df.
Proof.
  intros Hc H Hp. apply script_Ok in H.
  destruct H as (spot_price & n1 & chain_df & n2 & _ & _ & _ & H).
  destruct H as [(_ & _ & ->) | (_ & df' & p & H & _ & _ & ->)];
    [discriminate Hp|].
  simpl in Hp. injection Hp as ->.
  apply filtered_chain_Ok in H.
  destruct H as (pre & enriched & kept & E1 & E2 & E3 & ->).
  destruct (Hc kept) as [P S]. split; [exact S|].
  assert (T : Forall (fun r => Type' r = label (option_type inp)) enriched).
  { apply (static_type pre enriched (fun t => t = label (option_type inp))).
    - exact (enrich_loop_static _ _ _ _ _ _ E2).
    - exact (prefilter_type _ _ _ E1). }
  apply Forall_forall. intros r I.
  apply (Permutation_in _ (Permutation_sym P)) in I.
  apply (filter_iv_In _ _ _ E3) in I. destruct I as [I1 I2].
  split; [|apply iv_ge_true; exact I2].
  rewrite Forall_forall in T. apply T. exact I1.
Qed.

Lemma script_chain_rows_witness :
  exists page df,
    script (net_sample (PNum 55)) strftime_sample sort_stable no_cache
           (sample_sidebar "" 50) 0%nat 0%nat = Ok (page, 6%nat) /\
    chain page = Some df /\ StronglySorted strike_le df /\
    map Instrument df = ["BTC-27SEP24-60000-C"; "BTC-27SEP24-65000-C"]%string.
Proof.
  eexists. eexists.
  match goal with
  | |- ?lhs = Ok (?pg, _) /\ _ =>
      assert (E : lhs = Ok (pg, 6%nat)) by (vm_compute; reflexivity)
  end.
  split; [exact E|]. split; [reflexivity|]. split; [|reflexivity].
  exact (proj1 (script_chain_rows _ _ _ _ _ _ _ _ _ _ sort_stable_contract E eq_refl)).
Defined.

Lemma selectbox_In (options : list string) (choice : nat) (s : string) :
  selectbox options choice = Some s -> In s options.
Proof.
  unfold selectbox. destruct options as [|o rest]; [discriminate|].
  intros [= <-]. destruct choice as [|k]; simpl; [left; reflexivity|].
  destruct (nth_in_or_default k rest o) as [I | E].
  - right. exact I.
  - left. symmetry. exact E.
Qed.

Lemma first_named_In (name : string) (df : DataFrame) :
  In name (map Instrument df) ->
  exists r, first_named name df = Ok r /\ In r df /\ Instrument r = name.
Proof.
  intros I. unfold first_named.
  destruct (find (fun r => String.eqb (Instrument r) name) df) as [r|] eqn:F.
  - apply find_some in F. destruct F as [F1 F2]. apply String.eqb_eq in F2.
    exists r. auto.
  - exfalso. apply in_map_iff in I. destruct I as (x & Ex & Ix).
    pose proof (find_none _ _ F x Ix) as K. simpl in K.
    rewrite Ex, String.eqb_refl in K. discriminate K.
Qed.

Lemma premium_of_Raise (row : Row) (e : exn) :
  premium_of row = Raise e -> e = TypeError.
Proof.
  unfold premium_of, num.
  destruct (truthy (Ask row) && truthy (Bid row)); [|discriminate].
  destruct (as_num (Bid row)); simpl; [|intros [= <-]; reflexivity].
  destruct (as_num (Ask row)); simpl; [discriminate|intros [= <-]; reflexivity].
Qed.

Lemma price_grid_Raise (spot_price : pyval) (e : exn) :
  price_grid spot_price = Raise e ->
  (e = TypeError /\ as_num spot_price = None) \/
  (e = ValueError /\ exists s, as_num spot_price = Some s /\
                               py_int (s * (1 # 100)) = 0%Z) \/
  (e = NotModelled /\ exists s, as_num spot_price = Some s /\
                                py_int (s * (1 # 100)) <> 0%Z).
Proof.
  unfold price_grid, num.
  destruct (as_num spot_price) as [s|]; simpl.
  - unfold py_range. destruct (Z.eqb_spec (py_int (s * (1 # 100))) 0) as [E | E].
    + intros [= <-]. right. left. split; [reflexivity|]. exists s. auto.
    + simpl. destruct (int64 _ && int64 _); [discriminate|].
      intros [= <-]. right. right. split; [reflexivity|]. exists s. auto.
  - intros [= <-]. left. auto.
Qed.

Lemma first_named_split (name : string) (df : DataFrame) :
  In name (map Instrument df) ->
  exists pre row post,
    first_named name df = Ok row /\ df = pre ++ row :: post /\
    Instrument row = name /\ ~ In name (map Instrument pre).
Proof.
  unfold first_named. induction df as [|r df IH]; intros I; [contradiction|].
  simpl. destruct (String.eqb_spec (Instrument r) name) as [E | E].
  - exists [], r, df. simpl. auto.
  - destruct I as [I | I]; [contradiction|].
    destruct (IH I) as (pre & row & post & F & -> & N & P).
    destruct (find _ (pre ++ row :: post)) as [x|]; [|discriminate].
    injection F as ->. exists (r :: pre), row, post. simpl.
    repeat (split; [reflexivity || assumption|]).
    intros [K | K]; [contradiction|]. exact (P K).
Qed.

(** The payoff block either runs on the first row of the chain shown whose
    name is the one selected, and then its premium, price grid and curve
    are those of that row at the spot of the run; or it does not run, which
    happens only when the chain is empty or the selected name is the empty
    string.  The lookup of the selected row never fails: the block never
    raises [IndexError]. *)
Theorem payoff_section_outcomes (inp : Sidebar) (spot_price : pyval)
    (chain_df : DataFrame) (choice : nat) :
  match payoff_section inp spot_price chain_df choice with
  | Ok (Some pf) =>
      exists pre row post,
        chain_df = pre ++ row :: post /\
        selectbox (map Instrument chain_df) choice = Some (Instrument row) /\
        ~ In (Instrument row) (map Instrument pre) /\
        premium_of row = Ok (premium pf) /\
        price_grid spot_price = Ok (prices pf) /\
        payoff pf = payoff_curve (option_type inp) (Strike row)
                      (premium pf) (amount_to_sell inp) (prices pf)
  | Ok None =>
      chain_df = [] \/
      selectbox (map Instrument chain_df) choice = Some ""%string
  | Raise e => chain_df <> [] /\ e <> IndexError
  end.
Proof.
  unfold payoff_section.
  destruct (selectbox (map Instrument chain_df) choice) as [name|] eqn:S.
  - pose proof (selectbox_In _ _ _ S) as I.
    destruct (String.eqb_spec name "") as [-> | N]; simpl.
    + right. reflexivity.
    + destruct (first_named_split name chain_df I)
        as (pre & row & post & F & E & Hn & Hp).
      rewrite F. simpl. unfold payoff_block.
      assert (Hne : chain_df <> []) by (intros ->; contradiction).
      destruct (premium_of row) as [pr|e] eqn:P; simpl.
      * destruct (price_grid spot_price) as [g|e] eqn:G; simpl.
        -- exists pre, row, post. subst name. auto 10.
        -- split; [exact Hne|].
           destruct (price_grid_Raise _ _ G) as [[-> _] | [[-> _] | [-> _]]];
             discriminate.
      * split; [exact Hne|]. rewrite (premium_of_Raise _ _ P). discriminate.
  - left. unfold selectbox in S. destruct chain_df; [reflexivity|discriminate].
Qed.

(** Without a spot price no chain can be shown: when the spot price is
    [None] (as after a refused ticker request) and the filtering leaves a
    chain that is not empty, the run raises [TypeError] at the IV chart,
    before the payoff block. *)
Theorem script_needs_spot (net : nat -> url -> outcome)
    (strftime_dby : Q -> result string) (sort_values : DataFrame -> DataFrame)
    (cache : Cache) (inp : Sidebar) (choice : nat) (chain_df df : DataFrame)
    (n n1 n2 n3 : nat) :
  cached_get_spot_price net cache (asset inp) n = Ok (PNone, n1) ->
  cached_get_options_chain net strftime_dby cache (asset inp) n1
  = Ok (chain_df, n2) ->
  filtered_chain net sort_values inp chain_df n2 = Ok (df, n3) ->
  chain_df <> [] -> df <> [] ->
  script net strftime_dby sort_values cache inp choice n = Raise TypeError.
Proof.
  intros Hspot Hchain Hf Hne Hd. unfold script, io_bind.
  rewrite Hspot. simpl. rewrite Hchain.
  destruct chain_df as [|r0 chain_df]; [contradiction|].
  rewrite Hf. destruct df as [|r df]; [contradiction|]. reflexivity.
Qed.

Lemma script_needs_spot_witness :
  script net_no_ticker strftime_sample sort_stable no_cache
         (sample_sidebar "" 50) 0%nat 0%nat = Raise TypeError.
Proof.
  eapply (script_needs_spot net_no_ticker strftime_sample sort_stable no_cache
            (sample_sidebar "" 50) 0%nat _ _ 0%nat 1%nat 2%nat 6%nat).
  - reflexivity.
  - vm_compute. reflexivity.
  - vm_compute. reflexivity.
  - discriminate.
  - discriminate.
Defined.

(** ** The payoff curve and the risk figures *)

Lemma py_max_cases (a : Q) :
  (a <= 0 /\ py_max a 0 == 0) \/ (0 <= a /\ py_max a 0 == a).
Proof.
  unfold py_max. destruct (Qlt_le_dec a 0) as [L | L].
  - left. split; [apply Qlt_le_weak; exact L|reflexivity].
  - right. split; [exact L|reflexivity].
Qed.

Lemma payoff_curve_Forall (t : OptionType) (strike premium amount : Q)
    (prices : list Z) (P : Z -> Prop) (R : Q -> Prop) :
  (forall p, P p -> R ((premium - intrinsic t strike p) * amount)) ->
  Forall P prices -> Forall R (payoff_curve t strike premium amount prices).
Proof.
  intros H F. unfold payoff_curve. rewrite !map_map.
  induction F as [|p l Hp _ IH]; simpl; constructor; [apply H; exact Hp|exact IH].
Qed.

Lemma py_int_nonneg (q : Q) : 0 <= q -> (0 <= py_int q)%Z.
Proof.
  intros H. unfold py_int. apply Z.quot_pos; [|lia].
  unfold Qle in H. simpl in H. lia.
Qed.

(** With a spot that is not negative no sample price is negative. *)
Lemma price_grid_nonneg (spot_price : pyval) (s : Q) (grid : list Z) :
  as_num spot_price = Some s -> 0 <= s ->
  price_grid spot_price = Ok grid -> Forall (fun p => (0 <= p)%Z) grid.
Proof.
  intros Hs H0. unfold price_grid, num. rewrite Hs. simpl. unfold py_range.
  assert (A : (0 <= py_int (s * (1 # 2)))%Z) by (apply py_int_nonneg; lra).
  assert (B : (0 <= py_int (s * (1 # 100)))%Z) by (apply py_int_nonneg; lra).
  destruct (Z.eqb_spec (py_int (s * (1 # 100))) 0) as [E | E]; [discriminate|].
  simpl. destruct (int64 _ && int64 _); [|discriminate].
  intros [= <-]. apply Forall_forall. intros p I.
  apply in_map_iff in I. destruct I as (k & <- & _).
  assert (0 <= Z.of_nat k * py_int (s * (1 # 100)))%Z
    by (apply Z.mul_nonneg_nonneg; lia).
  lia.
Qed.

(** No point of the payoff curve lies above the max profit shown; for a
    put sold at a premium that is not negative, with a spot and a strike
    that are not negative, no point lies below minus the max loss shown. *)
Theorem payoff_within_risk_figures (row : Row) (t : OptionType) (amount : Q)
    (spot_price : pyval) (pf : Payoff) :
  payoff_block row t amount spot_price = Ok pf ->
  0 <= amount ->
  Forall (fun y => y <= max_profit pf) (payoff pf) /\
  (forall s l,
     as_num spot_price = Some s -> 0 <= s -> 0 <= Strike row ->
     0 <= premium pf -> max_loss pf = Loss l ->
     Forall (fun y => - l <= y) (payoff pf)).
Proof.
  intros H Ha. unfold payoff_block in H.
  destruct (premium_of row) as [pr|]; [|discriminate]. simpl in H.
  destruct (price_grid spot_price) as [g|] eqn:G; [|discriminate]. simpl in H.
  injection H as <-. simpl. split.
  - apply (payoff_curve_Forall t (Strike row) pr amount g (fun _ => True)).
    + intros p _. unfold max_profit_of.
      assert (I : 0 <= intrinsic t (Strike row) p).
      { destruct t; simpl;
          match goal with
          | |- 0 <= py_max ?a 0 => destruct (py_max_cases a) as [[? K] | [? K]]
          end; rewrite K; lra. }
      nra.
    + apply Forall_forall. auto.
  - intros s l Hs H0 Hk Hp Hl. destruct t; [discriminate Hl|].
    simpl in Hl. injection Hl as <-.
    apply (payoff_curve_Forall Put (Strike row) pr amount g (fun p => (0 <= p)%Z)).
    + intros p Hp0. simpl.
      assert (Q0 : 0 <= inject_Z p).
      { change 0 with (inject_Z 0). rewrite <- Zle_Qle. exact Hp0. }
      destruct (py_max_cases (Strike row - inject_Z p)) as [[? K] | [? K]];
        rewrite K; nra.
    + exact (price_grid_nonneg spot_price s g Hs H0 G).
Qed.

Lemma payoff_within_risk_figures_witness :
  exists pf,
    payoff_block (quoted_row (PNum 400) (PNum 600)) Put 2 (PNum 60000) = Ok pf /\
    Forall (fun y => y <= max_profit pf) (payoff pf).
Proof.
  eexists.
  match goal with
  | |- ?lhs = Ok ?p /\ _ => assert (E : lhs = Ok p) by (vm_compute; reflexivity)
  end.
  split; [exact E|].
  refine (proj1 (payoff_within_risk_figures _ _ _ _ _ E _)).
  unfold Qle. simpl. lia.
Defined.

(** For a seller of at least zero contracts, the payoff of a call does not
    increase and the payoff of a put does not decrease as the sample
    price goes up. *)
Theorem payoff_monotone (t : OptionType) (strike premium amount : Q)
    (prices : list Z) (j k : nat) (p p' : Z) :
  0 <= amount ->
  nth_error prices j = Some p -> nth_error prices k = Some p' ->
  (p <= p')%Z ->
  exists y y',
    nth_error (payoff_curve t strike premium amount prices) j = Some y /\
    nth_error (payoff_curve t strike premium amount prices) k = Some y' /\
    match t with Call => y' <= y | Put => y <= y' end.
Proof.
  intros Ha Hj Hk Hle. eexists. eexists.
  split; [apply payoff_curve_nth; exact Hj|].
  split; [apply payoff_curve_nth; exact Hk|].
  rewrite Zle_Qle in Hle.
  destruct t; simpl.
  - destruct (py_max_cases (inject_Z p - strike)) as [[L K] | [L K]];
      destruct (py_max_cases (inject_Z p' - strike)) as [[L' K'] | [L' K']];
      rewrite K, K'; nra.
  - destruct (py_max_cases (strike - inject_Z p)) as [[L K] | [L K]];
      destruct (py_max_cases (strike - inject_Z p')) as [[L' K'] | [L' K']];
      rewrite K, K'; nra.
Qed.

Lemma payoff_monotone_witness :
  exists y y',
    nth_error (payoff_curve Call 60000 500 1 [59000; 61000]%Z) 0 = Some y /\
    nth_error (payoff_curve Call 60000 500 1 [59000; 61000]%Z) 1 = Some y' /\
    y' <= y.
Proof.
  apply (payoff_monotone Call 60000 500 1 [59000; 61000]%Z 0 1 59000 61000).
  - unfold Qle. simpl. lia.
  - reflexivity.
  - reflexivity.
  - lia.
Defined.



(** ** The premium *)

(** The premium does not depend on which of the two quotes is the bid and
    which the ask: swapping them gives the same premium, or the same
    exception. *)
Theorem premium_symmetric (row row' : Row) :
  Bid row' = Ask row -> Ask row' = Bid row ->
  match premium_of row, premium_of row' with
  | Ok p, Ok p' => p == p'
  | Raise e, Raise e' => e = e'
  | _, _ => False
  end.
Proof.
  intros Hb Ha. unfold premium_of, num. rewrite Hb, Ha.
  rewrite (andb_comm (truthy (Bid row))).
  destruct (truthy (Ask row) && truthy (Bid row)); [|reflexivity].
  destruct (as_num (Bid row)) as [b|], (as_num (Ask row)) as [a|]; simpl;
    try reflexivity.
  field.
Qed.

Lemma premium_symmetric_witness :
  match premium_of (quoted_row (PNum 400) (PNum 600)),
        premium_of (quoted_row (PNum 600) (PNum 400)) with
  | Ok p, Ok p' => p == p'
  | Raise e, Raise e' => e = e'
  | _, _ => False
  end.
Proof.
  apply premium_symmetric; reflexivity.
Defined.

(** ** Cells written by the enrichment *)

(** A property of rows that every write of the enrichment keeps is kept by
    the enrichment. *)
Lemma update_at_Forall (P : Row -> Prop) (i : nat) (f : Row -> Row)
    (df : DataFrame) :
  (forall r, P r -> P (f r)) -> Forall P df -> Forall P (update_at i f df).
Proof.
  intros Hf H. unfold update_at. apply Forall_map.
  eapply Forall_impl; [|exact H].
  intros r Hr. destruct (Nat.eqb (idx r) i); [apply Hf|]; exact Hr.
Qed.

Lemma enrich_row_Forall (P : Row -> Prop) (net : nat -> url -> outcome)
    (i : nat) (name : string) (df df' : DataFrame) (m m' : nat) :
  (forall r c, P r -> P (with_quote c r)) ->
  (forall r rg g, greeks_cell rg = Ok g -> P r -> P (with_greeks g r)) ->
  enrich_row net i name df m = Ok (df', m') -> Forall P df -> Forall P df'.
Proof.
  intros Hq Hg. rewrite enrich_row_eq. intros H F.
  destruct (net m _) as [|rs]; [discriminate|].
  assert (F1 : forall df1,
            (if (status_code rs =? 200)%Z
             then bind (summary_cells rs)
                       (fun c => Ok (update_at i (with_quote c) df))
             else Ok df) = Ok df1 -> Forall P df1).
  { intros df1 K. destruct (status_code rs =? 200)%Z.
    - destruct (summary_cells rs) as [c|]; [|discriminate].
      simpl in K. injection K as <-. apply update_at_Forall; [|exact F].
      intros r. apply Hq.
    - injection K as <-. exact F. }
  destruct (if (status_code rs =? 200)%Z then _ else _) as [df1|];
    [|discriminate].
  specialize (F1 df1 eq_refl).
  destruct (net (S m) _) as [|rg]; [discriminate|].
  destruct (status_code rg =? 200)%Z.
  - destruct (greeks_cell rg) as [g|] eqn:G; [|discriminate].
    simpl in H. injection H as <- _. apply update_at_Forall; [|exact F1].
    intros r. apply (Hg r rg g G).
  - injection H as <- _. exact F1.
Qed.

Lemma enrich_loop_Forall (P : Row -> Prop) (net : nat -> url -> outcome)
    (rows : list Row) :
  (forall r c, P r -> P (with_quote c r)) ->
  (forall r rg g, greeks_cell rg = Ok g -> P r -> P (with_greeks g r)) ->
  forall df df' m m',
    enrich_loop net rows df m = Ok (df', m') -> Forall P df -> Forall P df'.
Proof.
  intros Hq Hg. induction rows as [|row rest IH]; intros df df' m m' H F.
  - injection H as <- _. exact F.
  - simpl in H. unfold io_bind in H.
    destruct (enrich_row net (idx row) (Instrument row) df m) as [[df1 m1]|] eqn:E;
      [|discriminate].
    apply (IH _ _ _ _ H).
    exact (enrich_row_Forall P net _ _ _ _ _ _ Hq Hg E F).
Qed.

Lemma greeks_cell_shape (rg : response) (g : pyval) :
  greeks_cell rg = Ok g ->
  exists d, g = PDict d /\
            map fst d = ["Delta"; "Gamma"; "Vega"; "Theta"; "Rho"]%string.
Proof.
  unfold greeks_cell. intros H.
  destruct (json rg) as [j|]; [|discriminate]. simpl in H.
  destruct (subscript j "result") as [gd|]; [|discriminate]. simpl in H.
  destruct (dict_get gd "delta") as [d1|]; [|discriminate]. simpl in H.
  destruct (dict_get gd "gamma") as [d2|]; [|discriminate]. simpl in H.
  destruct (dict_get gd "vega") as [d3|]; [|discriminate]. simpl in H.
  destruct (dict_get gd "theta") as [d4|]; [|discriminate]. simpl in H.
  destruct (dict_get gd "rho") as [d5|]; [|discriminate]. simpl in H.
  injection H as <-. eexists. split; reflexivity.
Qed.

(** The enrichment keeps the shape of the Greeks cells: if every cell is
    the empty dict or has exactly the keys Delta, Gamma, Vega, Theta and
    Rho before, so it is after; in particular this holds of a fetched
    chain, whose cells are all empty. *)
Theorem enrich_keeps_greeks_shape (net : nat -> url -> outcome)
    (df df' : DataFrame) (asset : string) (n n' : nat) :
  enrich_chain_with_data net df asset n = Ok (df', n') ->
  Forall (fun r => greeks_shape (Greeks r)) df ->
  Forall (fun r => greeks_shape (Greeks r)) df'.
Proof.
  unfold enrich_chain_with_data. intros H F.
  apply (enrich_loop_Forall (fun r => greeks_shape (Greeks r)) net df)
    with (df := df) (m := n) (m' := n'); try assumption.
  - intros r [[iv bid] ask] Hr. exact Hr.
  - intros r rg g G _. right. exact (greeks_cell_shape rg g G).
Qed.

Lemma enrich_keeps_greeks_shape_witness :
  exists df',
    enrich_chain_with_data net_one_refused two_calls "BTC" 0%nat = Ok (df', 4%nat) /\
    Forall (fun r => greeks_shape (Greeks r)) df'.
Proof.
  eexists.
  match goal with
  | |- ?lhs = Ok (?d, _) /\ _ =>
      assert (E : lhs = Ok (d, 4%nat)) by (vm_compute; reflexivity)
  end.
  split; [exact E|].
  apply (enrich_keeps_greeks_shape net_one_refused two_calls _ "BTC" 0%nat 4%nat E).
  repeat constructor.
Defined.

(** ** The expiry filter on literal text *)

Lemma starts_with_iff (pat s : string) :
  starts_with pat s = true <-> exists b, s = (pat ++ b)%string.
Proof.
  revert s. induction pat as [|c pat IH]; intros s; simpl.
  - split; [intros _; exists s; reflexivity|reflexivity].
  - destruct s as [|d s].
    + split; [discriminate|]. intros [b H]. discriminate H.
    + rewrite andb_true_iff, IH. split.
      * intros [E [b ->]]. apply Ascii.eqb_eq in E. subst d.
        exists b. reflexivity.
      * intros [b H]. injection H as -> ->. split; [apply Ascii.eqb_refl|].
        exists b. reflexivity.
Qed.

Lemma is_substring_iff (pat s : string) :
  is_substring pat s = true <-> exists a b, s = (a ++ pat ++ b)%string.
Proof.
  induction s as [|d s IH].
  - simpl. rewrite orb_false_r, starts_with_iff. split.
    + intros [b H]. exists ""%string, b. exact H.
    + intros (a & b & H). destruct a as [|c a]; [exists b; exact H|discriminate H].
  - simpl. rewrite orb_true_iff, IH. split.
    + intros [H | (a & b & ->)].
      * apply starts_with_iff in H. destruct H as [b H].
        exists ""%string, b. exact H.
      * exists (String d a), b. reflexivity.
    + intros (a & b & H). destruct a as [|c a].
      * left. apply starts_with_iff. exists b. exact H.
      * right. simpl in H. injection H as _ ->. exists a, b. reflexivity.
Qed.

(** For a pattern without special characters the expiry filter returns,
    and keeps exactly the rows whose expiry label is some text, the
    pattern, and some text: an unanchored substring match. *)
Theorem expiry_filter_contains (pat : string) (df : DataFrame) :
  literal pat = true ->
  exists kept,
    filter_expiry pat df = Ok kept /\
    forall r, In r kept <->
              In r df /\ exists a b, Expiry r = (a ++ pat ++ b)%string.
Proof.
  intros H. rewrite (filter_expiry_literal pat df H). eexists.
  split; [reflexivity|]. intros r. rewrite filter_In, is_substring_iff.
  reflexivity.
Qed.

Lemma expiry_filter_contains_witness :
  exists kept,
    filter_expiry "SEP" two_calls_one_strike = Ok kept /\
    map idx kept = [0%nat].
Proof.
  destruct (expiry_filter_contains "SEP" two_calls_one_strike eq_refl)
    as (kept & E & _).
  exists kept. split; [exact E|].
  vm_compute in E. injection E as <-. reflexivity.
Defined.

(** ** Requests of a run *)

Lemma cached_spot_counter (net : nat -> url -> outcome) (cache : Cache)
    (asset : string) (n n' : nat) (v : pyval) :
  cached_get_spot_price net cache asset n = Ok (v, n') ->
  (n <= n' <= S n)%nat.
Proof.
  unfold cached_get_spot_price, cache_data.
  destruct (cached_spot cache asset) as [c|].
  - intros [= _ <-]. lia.
  - intros H. apply get_spot_price_Ok in H. destruct H as [-> _]. lia.
Qed.

Lemma cached_chain_counter (net : nat -> url -> outcome)
    (strftime_dby : Q -> result string) (cache : Cache) (asset : string)
    (n n' : nat) (df : DataFrame) :
  cached_get_options_chain net strftime_dby cache asset n = Ok (df, n') ->
  (n <= n' <= S n)%nat.
Proof.
  unfold cached_get_options_chain, cache_data.
  destruct (cached_chain cache asset) as [c|].
  - intros [= _ <-]. lia.
  - intros H. apply get_options_chain_Ok in H. destruct H as [-> _]. lia.
Qed.

(** A run that shows a chain has sent at most two requests for the spot
    and the instrument list (none for a value found in the cache), and
    then exactly two for each row of the chosen type that passes the
    expiry filter, whether or not the row is shown; rows of the other type
    and rows filtered out by expiry are not requested. *)
Theorem script_request_count (net : nat -> url -> outcome)
    (strftime_dby : Q -> result string) (sort_values : DataFrame -> DataFrame)
    (cache : Cache) (inp : Sidebar) (choice : nat) (n n' : nat) (page : Page)
    (df : DataFrame) :
  sort_contract sort_values ->
  script net strftime_dby sort_values cache inp choice n = Ok (page, n') ->
  chain page = Some df ->
  exists spot_price n1 chain_df n2 pre,
    cached_get_spot_price net cache (asset inp) n = Ok (spot_price, n1) /\
    cached_get_options_chain net strftime_dby cache (asset inp) n1
    = Ok (chain_df, n2) /\
    prefilter inp chain_df = Ok pre /\
    (n <= n2 <= n + 2)%nat /\
    n' = (n2 + 2 * List.length pre)%nat /\
    (List.length df <= List.length pre)%nat.
Proof.
  intros Hc H Hp. apply script_Ok in H.
  destruct H as (spot_price & n1 & chain_df & n2 & E0 & _ & E1 & H).
  destruct H as [(_ & _ & ->) | (_ & df' & p & H & _ & _ & ->)];
    [discriminate Hp|].
  simpl in Hp. injection Hp as ->.
  apply filtered_chain_Ok in H.
  destruct H as (pre & enriched & kept & E2 & E3 & E4 & ->).
  exists spot_price, n1, chain_df, n2, pre.
  split; [exact E0|]. split; [exact E1|]. split; [exact E2|].
  apply cached_spot_counter in E0. apply cached_chain_counter in E1.
  split; [lia|].
  unfold enrich_chain_with_data in E3.
  destruct (enrich_loop_Ok net pre pre enriched _ _ E3) as (-> & L & _).
  split; [reflexivity|].
  destruct (Hc kept) as [P _]. rewrite <- (Permutation_length P), <- L.
  clear - E4. revert kept E4.
  induction enriched as [|r l IH]; intros kept E4.
  - injection E4 as <-. simpl. lia.
  - simpl in E4. destruct (iv_ge (IV r) (min_iv inp)) as [b|]; [|discriminate].
    simpl in E4. destruct (filter_iv (min_iv inp) l) as [rest|]; [|discriminate].
    simpl in E4. injection E4 as <-. specialize (IH rest eq_refl).
    destruct b; simpl; lia.
Qed.

Lemma script_request_count_witness :
  exists page,
    script (net_sample (PNum 55)) strftime_sample sort_stable no_cache
           (sample_sidebar "" 50) 0%nat 0%nat = Ok (page, 6%nat).
Proof.
  eexists.
  match goal with
  | |- ?lhs = Ok (?pg, _) =>
      assert (E : lhs = Ok (pg, 6%nat)) by (vm_compute; reflexivity)
  end.
  destruct (script_request_count _ _ _ _ _ _ _ _ _ _ sort_stable_contract E eq_refl)
    as (spot_price & n1 & chain_df & n2 & pre & _).
  exact E.
Defined.

(** * The sort of the chain *)






















